(** * logParser: flow-log classification against a lookup table

  A shallow embedding of [logParser.py] and the proofs of its specified
  properties.  The script loads a CSV lookup table, classifies every line
  of a flow log by (destination port, protocol) and writes a report.

  Conventions of the embedding.
  - Python [str] values are [string]s; a character above 127 stands for a
    code point outside ASCII, which the [encoding='ascii'] of every
    [open] refuses, on reading and on writing alike.
  - Python [int] is [Z]; the interpreter's configurable cap on the length
    of decimal literals and of printed integers is left out.
  - The file system is a finite map from paths to file contents, in an
    environment that says which paths can be opened and what [open]
    raises at the others; the files of the map are the ones the process
    can open, for reading and for writing.  Standard output is the list
    of the messages printed so far.
  - [dict]s that are iterated ([tag_counts], [port_protocol_counts]) are
    association lists in insertion order; the [lookup] dict, which is only
    probed, is a [gmap]. *)

From Stdlib Require Import ZArith Lia Ascii.
From stdpp Require Import base option list gmap strings pretty.

Local Open Scope Z_scope.

(** ** Python built-ins used by the script *)

Module Py.

Definition LF : ascii := ascii_of_nat 10.
Definition CR : ascii := ascii_of_nat 13.

(** [str.isspace] on the ASCII range: TAB, LF, VT, FF, CR, the four
    separators FS, GS, RS, US, and the space. *)
Definition isspace (c : ascii) : bool :=
  let n := N_of_ascii c in
  ((9 <=? n) && (n <=? 13) || (28 <=? n) && (n <=? 32))%N.

Definition is_ascii_char (c : ascii) : bool := (N_of_ascii c <? 128)%N.

Fixpoint is_ascii (s : string) : bool :=
  match s with
  | EmptyString => true
  | String c s' => is_ascii_char c && is_ascii s'
  end.

(** The word being collected is kept reversed in [cur]. *)
Definition flush (cur : string) : list string :=
  match cur with
  | EmptyString => []
  | _ => [String.rev cur]
  end.

Fixpoint split_go (cur : string) (s : string) : list string :=
  match s with
  | EmptyString => flush cur
  | String c s' =>
      if isspace c then flush cur ++ split_go EmptyString s'
      else split_go (String c cur) s'
  end.

(** [s.split()]: the maximal runs of non-whitespace characters. *)
Definition split (s : string) : list string := split_go EmptyString s.

Definition lower_char (c : ascii) : ascii :=
  let n := N_of_ascii c in
  if ((65 <=? n) && (n <=? 90))%N then ascii_of_N (n + 32) else c.

(** [s.lower()] on ASCII text. *)
Fixpoint lower (s : string) : string :=
  match s with
  | EmptyString => EmptyString
  | String c s' => String (lower_char c) (lower s')
  end.

Fixpoint lstrip (s : string) : string :=
  match s with
  | String c s' => if isspace c then lstrip s' else s
  | EmptyString => EmptyString
  end.

Definition strip (s : string) : string :=
  String.rev (lstrip (String.rev (lstrip s))).

Definition digit (c : ascii) : option Z :=
  let n := N_of_ascii c in
  if ((48 <=? n) && (n <=? 57))%N then Some (Z.of_N n - 48) else None.

(** Decimal digits with single underscores between them; [prev] tells
    whether the previous character was a digit. *)
Fixpoint digits_go (acc : Z) (prev : bool) (s : string) : option Z :=
  match s with
  | EmptyString => if prev then Some acc else None
  | String c s' =>
      match digit c with
      | Some d => digits_go (10 * acc + d) true s'
      | None =>
          if Ascii.eqb c "_" && prev then digits_go acc false s' else None
      end
  end.

(** [int(s)] in base 10: surrounding whitespace, an optional sign, then
    the digits.  [None] is [ValueError].  The interpreter's configurable
    limit on the number of digits of a literal is not part of the model. *)
Definition int (s : string) : option Z :=
  match strip s with
  | String "+" r => digits_go 0 false r
  | String "-" r => Z.opp <$> digits_go 0 false r
  | r => digits_go 0 false r
  end.

(** The lines a text file yields when iterated under universal newlines:
    LF, CR LF and a lone CR all end a line and read as LF; [skip] is set
    right after a CR, to swallow the LF of a CR LF. *)
Fixpoint lines_go (cur : string) (skip : bool) (s : string) : list string :=
  match s with
  | EmptyString => flush cur
  | String c s' =>
      if Ascii.eqb c LF then
        if skip then lines_go cur false s'
        else String.rev (String LF cur) :: lines_go EmptyString false s'
      else if Ascii.eqb c CR then
        String.rev (String LF cur) :: lines_go EmptyString true s'
      else lines_go (String c cur) false s'
  end.

Definition readlines (s : string) : list string :=
  lines_go EmptyString false s.

End Py.

(** ** The [csv.reader] of the standard library, default dialect

  Delimiter comma, quote character the double quote, doubled quotes inside
  a quoted field, not strict.  The reader is the character automaton of
  the library as of CPython 3.11, where a NUL character is data like any
  other; [None] as input character is the end-of-line mark the library
  feeds after each line it pulls from the file. *)

Module Csv.

Inductive state :=
| START_RECORD | START_FIELD | IN_FIELD
| IN_QUOTED_FIELD | QUOTE_IN_QUOTED_FIELD | EAT_CRNL.

Inductive error :=
| FieldLimit               (* field larger than field limit *)
| NewlineInUnquotedField.  (* new-line character seen in unquoted field *)

Definition row := list string.

(** [fields] and [field] are kept reversed. *)
Record parser := Parser {
  st : state;
  fields : list string;
  field : string;
  field_len : N
}.

Definition field_limit : N := 131072.
Definition delimiter : ascii := ",".
Definition quotechar : ascii := ascii_of_nat 34.

Definition reset : parser := Parser START_RECORD [] EmptyString 0.

Definition set_state (s : state) (p : parser) : parser :=
  Parser s (fields p) (field p) (field_len p).

Definition add_char (c : ascii) (p : parser) : error + parser :=
  if (field_limit <=? field_len p)%N then inl FieldLimit
  else inr (Parser (st p) (fields p) (String c (field p))
              (N.succ (field_len p))).

Definition save_field (p : parser) : parser :=
  Parser (st p) (String.rev (field p) :: fields p) EmptyString 0.

Definition then_state (s : state) (r : error + parser) : error + parser :=
  match r with
  | inl e => inl e
  | inr p => inr (set_state s p)
  end.

Definition is_newline (c : ascii) : bool :=
  Ascii.eqb c Py.LF || Ascii.eqb c Py.CR.

Definition end_of_field (c : option ascii) (p : parser) : parser :=
  set_state (if c is None then START_RECORD else EAT_CRNL) (save_field p).

Definition start_field (c : option ascii) (p : parser) : error + parser :=
  match c with
  | None => inr (end_of_field c p)
  | Some a =>
      if is_newline a then inr (end_of_field c p)
      else if Ascii.eqb a quotechar then inr (set_state IN_QUOTED_FIELD p)
      else if Ascii.eqb a delimiter then inr (save_field p)
      else then_state IN_FIELD (add_char a p)
  end.

Definition process_char (p : parser) (c : option ascii) : error + parser :=
  match st p with
  | START_RECORD =>
      match c with
      | None => inr p
      | Some a =>
          if is_newline a then inr (set_state EAT_CRNL p)
          else start_field c (set_state START_FIELD p)
      end
  | START_FIELD => start_field c p
  | IN_FIELD =>
      match c with
      | None => inr (end_of_field c p)
      | Some a =>
          if is_newline a then inr (end_of_field c p)
          else if Ascii.eqb a delimiter
               then inr (set_state START_FIELD (save_field p))
          else add_char a p
      end
  | IN_QUOTED_FIELD =>
      match c with
      | None => inr p
      | Some a =>
          if Ascii.eqb a quotechar
          then inr (set_state QUOTE_IN_QUOTED_FIELD p)
          else add_char a p
      end
  | QUOTE_IN_QUOTED_FIELD =>
      match c with
      | None => inr (end_of_field c p)
      | Some a =>
          if Ascii.eqb a quotechar
          then then_state IN_QUOTED_FIELD (add_char a p)
          else if Ascii.eqb a delimiter
               then inr (set_state START_FIELD (save_field p))
          else if is_newline a then inr (end_of_field c p)
          else then_state IN_FIELD (add_char a p)
      end
  | EAT_CRNL =>
      match c with
      | None => inr (set_state START_RECORD p)
      | Some a => if is_newline a then inr p else inl NewlineInUnquotedField
      end
  end.

(** One line pulled from the file: its characters, then the mark. *)
Fixpoint process_line (p : parser) (line : string) : error + parser :=
  match line with
  | EmptyString => process_char p None
  | String c line' =>
      match process_char p (Some c) with
      | inl e => inl e
      | inr p' => process_line p' line'
      end
  end.

(** The rows the reader yields over the lines of a file, then the error
    it raises, if any.  A record is complete when a line leaves the
    automaton in [START_RECORD]; a quoted field left open at the end of
    the input is closed there. *)
Fixpoint read (p : parser) (lines : list string) : list row * option error :=
  match lines with
  | [] =>
      match st p with
      | IN_QUOTED_FIELD => ([rev (fields (save_field p))], None)
      | _ => if (0 <? field_len p)%N
             then ([rev (fields (save_field p))], None)
             else ([], None)
      end
  | line :: rest =>
      match process_line p line with
      | inl e => ([], Some e)
      | inr p' =>
          match st p' with
          | START_RECORD =>
              let '(rows, e) := read reset rest in (rev (fields p') :: rows, e)
          | _ => read p' rest
          end
      end
  end.

Definition reader (lines : list string) : list row * option error :=
  read reset lines.

End Csv.

(** ** Exceptions, the process and its world *)

Inductive exn :=
| FileNotFoundError
| NotADirectoryError          (* a path that goes through a regular file *)
| IsADirectoryError           (* a path that names a directory *)
| PermissionError
| ValueError_path             (* embedded null byte in the path *)
| UnicodeDecodeError          (* a byte above 127 in a file read as ASCII *)
| UnicodeEncodeError          (* a character above 127 written as ASCII *)
| StopIteration               (* [next] on an exhausted reader *)
| InvalidRowLength            (* Exception("Invalid row length in log file") *)
| IndexError
| ValueError_int (s : string) (* [int(s)] on a non-numeric [s] *)
| ValueError_unpack           (* too many values to unpack (expected 3) *)
| CsvError (e : Csv.error).

(** What the script prints, one constructor per [print] call. *)
Inductive message :=
| FlowLogNotFound (path : string)   (* Error: Flow log file ... not found. *)
| LookupNotFound (path : string)    (* Error: Lookup file ... not found. *)
| UnexpectedError (e : exn)         (* An unexpected error occured: ... *)
| Usage
| ProcessingComplete (path : string).

(** What the operating system answers when a path is opened.  Which
    directories exist, what the process may touch and which names the
    system refuses belong to the machine the script runs on; the
    development takes them as given.

    - [write_error path] is what [open(path, mode='w')] raises, if
      anything: [FileNotFoundError] for the empty path or a missing
      directory, [IsADirectoryError], [NotADirectoryError],
      [PermissionError], [ValueError_path].
    - [read_error path] is what [open(path, mode='r')] raises at a path
      that holds no file: [FileNotFoundError] when nothing is there, one
      of the others when something stands in the way. *)
Class Environment := {
  write_error : string -> option exn;
  read_error : string -> exn
}.

Definition writable `{Environment} (path : string) : bool :=
  match write_error path with
  | None => true
  | Some _ => false
  end.

Record world := World {
  store : gmap string string;
  stdout : list message
}.

(** The files the process can open, by path: what [store] holds at the
    paths the environment lets it open for writing, each of which it can
    read as well.  A file that can be read but not written is outside the
    development.  Paths are taken as they are written: two spellings of
    the path of one file, [flow.log] and [./flow.log], are two keys here,
    so a statement that needs two paths to name different files says so
    through what the files hold, not through the spelling of the
    paths. *)
Definition files `{Environment} (w : world) : gmap string string :=
  filter (fun entry => writable entry.1 = true) (store w).

Definition print (m : message) (w : world) : world :=
  World (store w) (stdout w ++ [m]).

(** A file created or replaced. *)
Definition write_file (path content : string) (w : world) : world :=
  World (<[path := content]> (store w)) (stdout w).

(** How a call ends: it returns, it leaves through [sys.exit], or an
    exception nobody catches unwinds it; the interpreter then prints the
    traceback and ends the process with status 1. *)
Inductive outcome (A : Type) :=
| Returned (a : A)
| SysExit (code : Z)
| Uncaught (e : exn).
Arguments Returned {A} a.
Arguments SysExit {A} code.
Arguments Uncaught {A} e.

Definition M (A : Type) : Type := world -> outcome A * world.

#[export] Instance M_ret : MRet M := fun A a w => (Returned a, w).

#[export] Instance M_bind : MBind M := fun A B k m w =>
  match m w with
  | (Returned a, w') => k a w'
  | (SysExit code, w') => (SysExit code, w')
  | (Uncaught e, w') => (Uncaught e, w')
  end.

(** The body of a [try] block: an exception or a value. *)
#[export] Instance try_ret : MRet (sum exn) := fun A a => inr a.

#[export] Instance try_bind : MBind (sum exn) := fun A B k m =>
  match m with
  | inl e => inl e
  | inr a => k a
  end.

(** The two handlers that close both readers:
  [except FileNotFoundError] and [except Exception], each printing and
  calling [sys.exit(1)]. *)
Definition error_message (not_found : message) (e : exn) : message :=
  match e with
  | FileNotFoundError => not_found
  | _ => UnexpectedError e
  end.

Definition handlers {A} (not_found : message) (body : exn + A) : M A :=
  fun w =>
    match body with
    | inr a => (Returned a, w)
    | inl e => (SysExit 1, print (error_message not_found e) w)
    end.

(** [open(path, mode='r', encoding='ascii')] followed by iteration over the
  file: the lines of the decoded text.  The decoding error of a file that
  is not ASCII is raised before the first line is delivered, as the
  interpreter does for a file that fits its read buffer. *)
Definition open_read `{Environment} (path : string) (fs : gmap string string)
  : exn + list string :=
  match fs !! path with
  | None => inl (read_error path)
  | Some bytes =>
      if Py.is_ascii bytes then inr (Py.readlines bytes)
      else inl UnicodeDecodeError
  end.

(** ** Counting dictionaries

  [defaultdict(int)] as an association list in insertion order. *)

Section counts.
Context {K : Type} `{EqDecision K}.

(** [d[k] += 1]: a present key keeps its place, a new key goes last. *)
Fixpoint incr (k : K) (d : list (K * Z)) : list (K * Z) :=
  match d with
  | [] => [(k, 1)]
  | (k', n) :: d' =>
      if decide (k = k') then (k', n + 1) :: d' else (k', n) :: incr k d'
  end.

(** [d.get(k, 0)] *)
Fixpoint count (k : K) (d : list (K * Z)) : Z :=
  match d with
  | [] => 0
  | (k', n) :: d' => if decide (k = k') then n else count k d'
  end.

(** [sum(d.values())] *)
Fixpoint total (d : list (K * Z)) : Z :=
  match d with
  | [] => 0
  | (_, n) :: d' => n + total d'
  end.

End counts.

(** ** The script *)

Definition nl : string := String Py.LF EmptyString.

(** The lookup table: [(dstport, protocol)] to tag. *)
Abbreviation lookup_table := (gmap (string * string) string).

(** [tag_counts], [port_protocol_counts] and [untagged_count]. *)
Record aggregates := Aggregates {
  tag_counts : list (string * Z);
  port_protocol_counts : list (string * string * Z);
  untagged_count : Z
}.

Definition no_aggregates : aggregates := Aggregates [] [] 0.

(** *** [load_lookup_table] *)

(** The body of [for row in reader]: the length guard, the unpacking of the
    row into exactly three names, the store under the lowercased protocol. *)
Definition load_row (row : Csv.row) (lookup : lookup_table)
  : exn + lookup_table :=
  if (length row <? 3)%nat then inl InvalidRowLength
  else match row with
       | [dstport; protocol; tag] =>
           inr (<[(dstport, Py.lower protocol) := tag]> lookup)
       | _ => inl ValueError_unpack
       end.

(** The loop over the rows the reader yields; [err] is the error the reader
    raises once those rows are consumed, if any. *)
Fixpoint load_rows (rows : list Csv.row) (err : option Csv.error)
  (lookup : lookup_table) : exn + lookup_table :=
  match rows with
  | [] => if err is Some e then inl (CsvError e) else inr lookup
  | row :: rest => lookup' ← load_row row lookup; load_rows rest err lookup'
  end.

(** [next(reader)] then the loop. *)
Definition load_lookup_body `{Environment} (lookup_file : string)
  (fs : gmap string string)
  : exn + lookup_table :=
  lines ← open_read lookup_file fs;
  match Csv.reader lines with
  | ([], None) => inl StopIteration
  | ([], Some e) => inl (CsvError e)
  | (_header :: rows, err) => load_rows rows err ∅
  end.

Definition load_lookup_table `{Environment} (lookup_file : string)
  : M lookup_table :=
  fun w =>
    handlers (LookupNotFound lookup_file)
      (load_lookup_body lookup_file (files w)) w.

(** *** [write_output] *)

(** The file being written: what has reached it, and the exception that
    stopped the writing, after which no further [write] runs. *)
Record handle := Handle {
  written : string;
  failed : option exn
}.

(** [open(output_file, mode='w', encoding='ascii')] truncates. *)
Definition open_write : handle := Handle EmptyString None.

(** [file.write(text)] *)
Definition fwrite (text : string) (h : handle) : handle :=
  match failed h with
  | Some _ => h
  | None =>
      if Py.is_ascii text then Handle (written h +:+ text) None
      else Handle (written h) (Some UnicodeEncodeError)
  end.

(** The two loops write [f"{tag},{count}\n"] and
    [f"{port},{protocol},{count}\n"] for each item, in the order in which
    the dictionaries hold them. *)
Definition write_output_body (tag_counts : list (string * Z))
  (port_protocol_counts : list (string * string * Z)) (untagged_count : Z)
  : handle :=
  let file := open_write in
  let file := fwrite ("Tag Counts:" +:+ nl) file in
  let file := fwrite ("Tag,Count" +:+ nl) file in
  let file :=
    foldl (fun file '(tag, count) =>
             fwrite (tag +:+ "," +:+ pretty count +:+ nl) file)
      file tag_counts in
  let file :=
    fwrite ("Untagged," +:+ pretty untagged_count +:+ nl +:+ nl) file in
  let file := fwrite ("Port/Protocol Combination Counts:" +:+ nl) file in
  let file := fwrite ("Port,Protocol,Count" +:+ nl) file in
  foldl (fun file '(port, protocol, count) =>
           fwrite (port +:+ "," +:+ protocol +:+ "," +:+ pretty count +:+ nl)
             file)
    file port_protocol_counts.

(** [open] may refuse the path, and then nothing is written.  Leaving the
    [with] block closes the file, so what was written before an exception
    stays in it.  Neither exception is caught. *)
Definition write_output `{Environment} (tag_counts : list (string * Z))
  (port_protocol_counts : list (string * string * Z)) (untagged_count : Z)
  (output_file : string) : M unit :=
  fun w =>
    match write_error output_file with
    | Some e => (Uncaught e, w)
    | None =>
        let file :=
          write_output_body tag_counts port_protocol_counts untagged_count in
        (match failed file with
         | None => Returned ()
         | Some e => Uncaught e
         end,
         write_file output_file (written file) w)
    end.

(** *** [process_flow_logs] and [main]

    [CONSTANTS.protocol_mapping], the table from protocol numbers to
    protocol names, is a parameter of the development. *)

Section LogParser.
Context `{Environment}.
Variable protocol_mapping : gmap Z string.

(** The body of [for line in file]. *)
Definition classify_line (lookup : lookup_table) (line : string)
  (acc : aggregates) : exn + aggregates :=
  let parts := Py.split line in
  if (length parts <? 14)%nat then inl InvalidRowLength
  else
    match parts !! 6%nat, parts !! 7%nat with
    | Some dst_port, Some protocol =>
        match Py.int protocol with
        | None => inl (ValueError_int protocol)
        | Some number =>
            let protocol := default "" (protocol_mapping !! number) in
            let key := (dst_port, Py.lower protocol) in
            inr (match lookup !! key with
                 | Some tag =>
                     Aggregates (incr tag (tag_counts acc))
                       (incr key (port_protocol_counts acc))
                       (untagged_count acc)
                 | None =>
                     Aggregates (tag_counts acc)
                       (incr key (port_protocol_counts acc))
                       (untagged_count acc + 1)
                 end)
        end
    | _, _ => inl IndexError
    end.

Fixpoint classify_lines (lookup : lookup_table) (lines : list string)
  (acc : aggregates) : exn + aggregates :=
  match lines with
  | [] => inr acc
  | line :: rest =>
      acc' ← classify_line lookup line acc; classify_lines lookup rest acc'
  end.

Definition process_flow_logs (flow_log_file : string) (lookup : lookup_table)
  : M aggregates :=
  fun w =>
    handlers (FlowLogNotFound flow_log_file)
      (lines ← open_read flow_log_file (files w);
       classify_lines lookup lines no_aggregates) w.

Definition say (m : message) : M unit := fun w => (Returned (), print m w).

Definition sys_exit {A} (code : Z) : M A := fun w => (SysExit code, w).

(** [argv] is [sys.argv], the script's own name first. *)
Definition main (argv : list string) : M unit :=
  match argv with
  | [_; flow_log_file; lookup_file; output_file] =>
      lookup ← load_lookup_table lookup_file;
      acc ← process_flow_logs flow_log_file lookup;
      write_output (tag_counts acc) (port_protocol_counts acc)
        (untagged_count acc) output_file;;
      say (ProcessingComplete output_file)
  | _ => say Usage;; sys_exit 1
  end.

End LogParser.

(** ** Notions the statements use *)

(** The errors a malformed flow log raises. *)
Definition format_error (e : exn) : Prop :=
  match e with
  | InvalidRowLength | ValueError_int _ | UnicodeDecodeError => True
  | _ => False
  end.

(** Whether a call came back with a value. *)
Definition returned {A} (o : outcome A) : bool :=
  match o with
  | Returned _ => true
  | _ => false
  end.

(** The key a three-field row is stored under. *)
Definition row_key (row : Csv.row) : option (string * string) :=
  match row with
  | [dstport; protocol; _] => Some (dstport, Py.lower protocol)
  | _ => None
  end.

(** *** The report as the specification lays it out

    The lines of the report, without their line ends: the two headers of
    the tag section, a record [<tag>,<count>] per tag, the [Untagged]
    record, one empty line, the two headers of the port/protocol section,
    a record [<port>,<protocol>,<count>] per pair. *)

Definition tag_record (item : string * Z) : string :=
  item.1 +:+ "," +:+ pretty item.2.

Definition port_protocol_record (item : string * string * Z) : string :=
  item.1.1 +:+ "," +:+ item.1.2 +:+ "," +:+ pretty item.2.

Definition report_lines (tag_counts : list (string * Z))
  (port_protocol_counts : list (string * string * Z)) (untagged_count : Z)
  : list string :=
  ["Tag Counts:"; "Tag,Count"]
  ++ (tag_record <$> tag_counts)
  ++ ["Untagged," +:+ pretty untagged_count]
  ++ [""]
  ++ ["Port/Protocol Combination Counts:"; "Port,Protocol,Count"]
  ++ (port_protocol_record <$> port_protocol_counts).

(** Each line followed by a line feed. *)
Fixpoint unlines (lines : list string) : string :=
  match lines with
  | [] => ""
  | line :: rest => line +:+ nl +:+ unlines rest
  end.

(** *** ASCII text *)

Definition ascii_text (s : string) : Prop := Py.is_ascii s = true.

(** The tags, ports and protocol names of the aggregates. *)
Definition ascii_keys (tag_counts : list (string * Z))
  (port_protocol_counts : list (string * string * Z)) : bool :=
  forallb (fun item => Py.is_ascii item.1) tag_counts
  && forallb (fun item => Py.is_ascii item.1.1 && Py.is_ascii item.1.2)
       port_protocol_counts.

(** No line feed and no carriage return in [s]. *)
Fixpoint single_line (s : string) : bool :=
  match s with
  | EmptyString => true
  | String c s' =>
      negb (Ascii.eqb c Py.LF) && negb (Ascii.eqb c Py.CR) && single_line s'
  end.

(** The same keys, each on one line. *)
Definition single_line_keys (tag_counts : list (string * Z))
  (port_protocol_counts : list (string * string * Z)) : bool :=
  forallb (fun item => single_line item.1) tag_counts
  && forallb (fun item => single_line item.1.1 && single_line item.1.2)
       port_protocol_counts.

(** The tags of a lookup table, the names of a protocol table. *)
Definition ascii_values {K} `{Countable K} (m : gmap K string) : Prop :=
  map_Forall (fun _ value => ascii_text value) m.

(** What the CSV automaton has collected so far. *)
Definition ascii_parser (p : Csv.parser) : Prop :=
  Forall ascii_text (Csv.fields p) /\ ascii_text (Csv.field p).

(** ** Sample data *)

(** An environment for the examples: one directory, in which [lookup.csv]
    can hold a file.  The empty path and the paths under [nodir/], a
    directory that is not there, cannot be opened; a path under
    [lookup.csv/] goes through a regular file. *)
Definition sample_write_error (path : string) : option exn :=
  if String.eqb path "" then Some FileNotFoundError
  else if String.prefix "nodir/" path then Some FileNotFoundError
  else if String.prefix "lookup.csv/" path then Some NotADirectoryError
  else None.

Definition sample_read_error (path : string) : exn :=
  if String.prefix "lookup.csv/" path then NotADirectoryError
  else FileNotFoundError.

#[export] Instance sample_environment : Environment := {|
  write_error := sample_write_error;
  read_error := sample_read_error
|}.

(** Modelled from the spec: the contents of [CONSTANTS.protocol_mapping],
    a module that is not part of the sources at hand.  The specification
    names 6 as tcp and 17 as udp; 1 as icmp is the IANA assignment. *)
Definition iana_protocols : gmap Z string :=
  {[ 1 := "icmp"; 6 := "tcp"; 17 := "udp" ]}.

(** A lookup file in which the key (25, tcp) comes twice, in two
    spellings of the protocol. *)
Definition sample_lookup_file : string :=
  "dstport,protocol,tag
25,tcp,sv_P1
53,UDP,dns
25,TCP,mail
443,tcp,https
".

(** What [load_lookup_table] makes of it. *)
Definition sample_lookup : lookup_table :=
  {[ ("25", "tcp") := "mail"; ("53", "udp") := "dns";
     ("443", "tcp") := "https" ]}.

(** A lookup file whose only row has a fourth field. *)
Definition four_field_lookup_file : string :=
  "dstport,protocol,tag
25,tcp,sv_P1,mail
".

(** Flow-log lines: a well-formed one, one with 8 fields, one whose
    protocol field is a name and not a number, one with a protocol number
    that [iana_protocols] does not list. *)
Definition good_line : string :=
  "2 123456789012 eni-0a1b2c3d 10.0.1.201 198.51.100.2 443 25 6 25 20000 1620140761 1620140821 ACCEPT OK
".

Definition short_line : string :=
  "2 123456789012 eni-0a1b2c3d 10.0.1.201 198.51.100.2 443 25 6
".

Definition named_protocol_line : string :=
  "2 123456789012 eni-0a1b2c3d 10.0.1.201 198.51.100.2 443 25 tcp 25 20000 1620140761 1620140821 ACCEPT OK
".

Definition unmapped_protocol_line : string :=
  "2 123456789012 eni-0a1b2c3d 10.0.1.201 198.51.100.2 443 80 999 25 20000 1620140761 1620140821 ACCEPT OK
".

Definition sample_flow_log : string :=
  "2 123456789012 eni-0a1b2c3d 10.0.1.201 198.51.100.2 443 25 6 25 20000 1620140761 1620140821 ACCEPT OK
2 123456789012 eni-0a1b2c3d 10.0.1.201 198.51.100.2 443 53 17 25 20000 1620140761 1620140821 ACCEPT OK
2 123456789012 eni-0a1b2c3d 10.0.1.201 198.51.100.2 443 80 999 25 20000 1620140761 1620140821 ACCEPT OK
2 123456789012 eni-0a1b2c3d 10.0.1.201 198.51.100.2 443 25 6 25 20000 1620140761 1620140821 ACCEPT OK
2 123456789012 eni-0a1b2c3d 10.0.1.201 198.51.100.2 443 8080 6 25 20000 1620140761 1620140821 ACCEPT OK
".

(** What [process_flow_logs] makes of it under [sample_lookup]. *)
Definition sample_aggregates : aggregates :=
  Aggregates [("mail", 2); ("dns", 1)]
    [("25", "tcp", 2); ("53", "udp", 1); ("80", "", 1); ("8080", "tcp", 1)] 2.

(** The report of those aggregates, line by line. *)
Definition sample_report : list string :=
  report_lines (tag_counts sample_aggregates)
    (port_protocol_counts sample_aggregates)
    (untagged_count sample_aggregates).

(** A tag outside ASCII: e with an acute accent, code point 233. *)
Definition accented_tag : string := String (ascii_of_nat 233) "".

(** An ASCII tag with an empty line inside. *)
Definition line_feed_tag : string := "a" +:+ nl +:+ nl +:+ "b".

(** The command line. *)
Definition sample_argv : list string :=
  ["logParser.py"; "flow.log"; "lookup.csv"; "out.txt"].

(** Worlds: the two sample files and nothing else; the sample lookup file,
    a given flow log and an earlier report at the output path; no flow log
    at all; an empty lookup file; the lookup file with the four-field row;
    no file at all. *)
Definition sample_world : world :=
  World {[ "lookup.csv" := sample_lookup_file;
           "flow.log" := sample_flow_log ]} [].

Definition world_with_flow_log (content : string) : world :=
  World {[ "lookup.csv" := sample_lookup_file; "flow.log" := content;
           "out.txt" := "an earlier report" ]} [].

Definition short_line_world : world :=
  world_with_flow_log (good_line +:+ short_line +:+ good_line).

Definition named_protocol_world : world :=
  world_with_flow_log (good_line +:+ named_protocol_line).

Definition no_flow_log_world : world :=
  World {[ "lookup.csv" := sample_lookup_file;
           "out.txt" := "an earlier report" ]} [].

Definition empty_lookup_world : world := World {[ "lookup.csv" := "" ]} [].

Definition four_field_world : world :=
  World {[ "lookup.csv" := four_field_lookup_file ]} [].

Definition empty_world : world := World ∅ [].

(** ** The classifier seen as two passes

    What follows restates no code of its own: [line_key] is the part of the
    loop body that reads a line (the split, the length guard, fields 6 and
    7, [int], the protocol table, the lowercasing), [bump] the part that
    counts; [classify_line_factors] shows the loop body is the one after
    the other. *)

Section classifier_view.
Variable protocol_mapping : gmap Z string.

Definition line_key (line : string) : exn + string * string :=
  let parts := Py.split line in
  if (length parts <? 14)%nat then inl InvalidRowLength
  else
    match parts !! 6%nat, parts !! 7%nat with
    | Some dst_port, Some protocol =>
        match Py.int protocol with
        | None => inl (ValueError_int protocol)
        | Some number =>
            inr (dst_port,
                 Py.lower (default "" (protocol_mapping !! number)))
        end
    | _, _ => inl IndexError
    end.

Fixpoint line_keys (lines : list string) : exn + list (string * string) :=
  match lines with
  | [] => inr []
  | line :: rest =>
      key ← line_key line; keys ← line_keys rest; inr (key :: keys)
  end.

End classifier_view.

Definition bump (lookup : lookup_table) (acc : aggregates)
  (key : string * string) : aggregates :=
  match lookup !! key with
  | Some tag =>
      Aggregates (incr tag (tag_counts acc))
        (incr key (port_protocol_counts acc)) (untagged_count acc)
  | None =>
      Aggregates (tag_counts acc) (incr key (port_protocol_counts acc))
        (untagged_count acc + 1)
  end.

(** How often [x] occurs in [l]. *)
Fixpoint occurrences {A} `{EqDecision A} (x : A) (l : list A) : Z :=
  match l with
  | [] => 0
  | y :: l' => (if decide (x = y) then 1 else 0) + occurrences x l'
  end.

(** The distinct elements of [l], each at the place of its first
    occurrence. *)
Definition first_seen {A} `{EqDecision A} (l : list A) : list A :=
  reverse (remove_dups (reverse l)).

(** A line the classifier accepts: at least 14 fields, an integer literal
    in field 7. *)
Definition well_formed_line (line : string) : Prop :=
  (14 <= length (Py.split line))%nat
  /\ exists protocol number,
       Py.split line !! 7%nat = Some protocol
       /\ Py.int protocol = Some number.

(** A flow log of three well-formed lines, two of them for the same pair,
    with the first pair coming back last. *)
Definition three_line_flow_log : string :=
  good_line +:+ unmapped_protocol_line +:+ good_line.

(** *** More sample data *)

Definition sample_keys : list (string * string) :=
  [("25", "tcp"); ("53", "udp"); ("80", ""); ("25", "tcp"); ("8080", "tcp")].

Definition mixed_errors_world : world :=
  world_with_flow_log (good_line +:+ short_line +:+ named_protocol_line).

Definition sample_rows : list Csv.row :=
  [["25"; "tcp"; "sv_P1"]; ["53"; "UDP"; "dns"]; ["25"; "TCP"; "mail"];
   ["443"; "tcp"; "https"]].

(** A lookup file with an empty line between two rows. *)
Definition blank_line_lookup_file : string :=
  "dstport,protocol,tag
25,tcp,sv_P1

443,tcp,https,comment
".

Definition blank_line_world : world :=
  World {[ "lookup.csv" := blank_line_lookup_file ]} [].

(** The report of a flow log without lines. *)
Definition empty_report : string :=
  unlines ["Tag Counts:"; "Tag,Count"; "Untagged,0"; "";
           "Port/Protocol Combination Counts:"; "Port,Protocol,Count"].

Definition empty_flow_log_world : world := world_with_flow_log "".

(** The command line of a run that writes its report over the flow log. *)
Definition overwriting_argv : list string :=
  ["logParser.py"; "flow.log"; "lookup.csv"; "flow.log"].

(** A world whose two input files hold a byte above 127. *)
Definition non_ascii_world : world :=
  World {[ "lookup.csv" := accented_tag; "flow.log" := accented_tag ]} [].

(** * Properties *)

(** ** The built-ins at work *)

Example split_ex :
  Py.split "2 123  eni-0a1b	10.0.1.201
" = ["2"; "123"; "eni-0a1b"; "10.0.1.201"].
Proof. reflexivity. Qed.

Example int_ex :
  (Py.int "6", Py.int "+17", Py.int "-1", Py.int "1_0", Py.int "007")
  = (Some 6, Some 17, Some (-1), Some 10, Some 7)
  /\ (Py.int "", Py.int "tcp", Py.int "1__0", Py.int "_1", Py.int "1_",
      Py.int "6.0", Py.int "+")
     = (None, None, None, None, None, None, None).
Proof. split; reflexivity. Qed.

Example readlines_ex :
  Py.readlines (String "a" (String Py.CR (String Py.LF (String "b"
     (String Py.CR (String "c" (String Py.LF (String Py.LF "d"))))))))
  = [String "a" (String Py.LF ""); String "b" (String Py.LF "");
     String "c" (String Py.LF ""); String Py.LF ""; "d"].
Proof. reflexivity. Qed.

Example csv_reader_ex :
  Csv.reader (Py.readlines "dstport,protocol,tag
25,tcp,sv_P1

443,TCP,sv_P2,extra,
a,")
  = ([["dstport"; "protocol"; "tag"]; ["25"; "tcp"; "sv_P1"]; [];
      ["443"; "TCP"; "sv_P2"; "extra"; ""]; ["a"; ""]], None).
Proof. reflexivity. Qed.

Example csv_reader_quoted :
  Csv.reader [String Csv.quotechar "a,b" +:+ String Csv.quotechar ",c";
              String Csv.quotechar "open"]
  = ([["a,b"; "c"]; ["open"]], None).
Proof. reflexivity. Qed.

Example csv_reader_empty : Csv.reader (Py.readlines "") = ([], None).
Proof. reflexivity. Qed.

(** ** A run of the whole script *)

Example sample_run :
  let '(o, w) := main iana_protocols sample_argv sample_world in
  o = Returned ()
  /\ stdout w = [ProcessingComplete "out.txt"]
  /\ files w !! "out.txt" = Some
"Tag Counts:
Tag,Count
mail,2
dns,1
Untagged,2

Port/Protocol Combination Counts:
Port,Protocol,Count
25,tcp,2
53,udp,1
80,,1
8080,tcp,1
".
Proof. vm_compute. repeat split; reflexivity. Qed.

(** ** Counting dictionaries *)

Section counts_facts.
Context {K : Type} `{EqDecision K}.
Implicit Types (k : K) (d : list (K * Z)).

Lemma total_incr k d : total (incr k d) = total d + 1.
Proof.
  induction d as [|[k' n] d IH]; simpl; [lia|].
  destruct (decide (k = k')); simpl; lia.
Qed.

Lemma count_incr_eq k d : count k (incr k d) = count k d + 1.
Proof.
  induction d as [|[k' n] d IH]; simpl.
  - rewrite decide_True by done. lia.
  - destruct (decide (k = k')) as [->|Hne]; simpl.
    + by rewrite decide_True.
    + by rewrite decide_False.
Qed.

Lemma count_incr_ne k k' d : k ≠ k' -> count k' (incr k d) = count k' d.
Proof.
  intros Hne. induction d as [|[k0 n] d IH]; simpl.
  - by rewrite decide_False.
  - destruct (decide (k = k0)) as [->|?]; simpl.
    + by rewrite !decide_False.
    + destruct (decide (k' = k0)); done.
Qed.

(** Insertion order: the keys already present stay where they are. *)
Lemma keys_incr k d :
  (incr k d).*1 = if decide (k ∈ d.*1) then d.*1 else d.*1 ++ [k].
Proof.
  induction d as [|[k' n] d IH].
  - destruct (decide (k ∈ ([] : list (K * Z)).*1)) as [Hin|_]; [|done].
    by apply elem_of_nil in Hin.
  - change (((k', n) :: d).*1) with (k' :: d.*1).
    change (incr k ((k', n) :: d))
      with (if decide (k = k') then (k', n + 1) :: d else (k', n) :: incr k d).
    destruct (decide (k = k')) as [->|Hne].
    + rewrite decide_True; [done|]. apply elem_of_cons. by left.
    + change (((k', n) :: incr k d).*1) with (k' :: (incr k d).*1).
      rewrite IH. destruct (decide (k ∈ d.*1)) as [Hin|Hnin].
      * rewrite decide_True; [done|]. apply elem_of_cons. by right.
      * rewrite decide_False; [done|].
        intros [?|?]%elem_of_cons; done.
Qed.
End counts_facts.

(** ** The error plumbing *)

Lemma handlers_returned {A} (m : message) (body : exn + A) w a w' :
  handlers m body w = (Returned a, w') -> body = inr a /\ w' = w.
Proof.
  unfold handlers. destruct body as [e|a0]; [done|].
  intros [= -> ->]. done.
Qed.

Lemma open_read_ok `{Environment} path fs lines :
  open_read path fs = inr lines ->
  exists content,
    fs !! path = Some content /\ Py.is_ascii content = true
    /\ lines = Py.readlines content.
Proof.
  unfold open_read. destruct (fs !! path) as [content|]; [|done].
  destruct (Py.is_ascii content) eqn:Hascii; [|done].
  intros [= <-]. eauto.
Qed.

(** ** The classifier, line by line *)

Section classifier_facts.
Context `{Environment}.
Variable protocol_mapping : gmap Z string.
Implicit Types (lookup : lookup_table) (acc : aggregates).

(** A line that is classified bumps exactly one counter among the tag
    counters and the untagged counter, and exactly one port/protocol
    counter. *)
Lemma classify_line_step lookup line acc acc' :
  classify_line protocol_mapping lookup line acc = inr acc' ->
  (exists key,
      port_protocol_counts acc' = incr key (port_protocol_counts acc))
  /\ ((exists tag,
         tag_counts acc' = incr tag (tag_counts acc)
         /\ untagged_count acc' = untagged_count acc)
      \/ (tag_counts acc' = tag_counts acc
          /\ untagged_count acc' = untagged_count acc + 1)).
Proof.
  unfold classify_line.
  destruct (length (Py.split line) <? 14)%nat; [done|].
  destruct (Py.split line !! 6%nat) as [dst_port|]; [|done].
  destruct (Py.split line !! 7%nat) as [protocol|]; [|done].
  destruct (Py.int protocol) as [number|]; [|done].
  intros [= <-].
  destruct (lookup !! _) as [tag|]; simpl; eauto 6.
Qed.

Lemma classify_line_totals lookup line acc acc' :
  classify_line protocol_mapping lookup line acc = inr acc' ->
  total (tag_counts acc') + untagged_count acc'
  = total (tag_counts acc) + untagged_count acc + 1
  /\ total (port_protocol_counts acc') = total (port_protocol_counts acc) + 1.
Proof.
  intros [[key ->] [(tag & -> & ->)|[-> ->]]]%classify_line_step;
    rewrite !total_incr; lia.
Qed.

Lemma classify_lines_totals lookup lines acc acc' :
  classify_lines protocol_mapping lookup lines acc = inr acc' ->
  total (tag_counts acc') + untagged_count acc'
  = total (tag_counts acc) + untagged_count acc + Z.of_nat (length lines)
  /\ total (port_protocol_counts acc')
     = total (port_protocol_counts acc) + Z.of_nat (length lines).
Proof.
  revert acc. induction lines as [|line rest IH]; intros acc; simpl.
  - intros [= <-]. lia.
  - destruct (classify_line _ lookup line acc) as [e|acc1] eqn:Hline; [done|].
    simpl. intros Hrest. apply IH in Hrest.
    apply classify_line_totals in Hline. lia.
Qed.

Lemma process_flow_logs_returned flow_log_file lookup w acc w' :
  process_flow_logs protocol_mapping flow_log_file lookup w = (Returned acc, w') ->
  exists content,
    files w !! flow_log_file = Some content
    /\ Py.is_ascii content = true
    /\ classify_lines protocol_mapping lookup (Py.readlines content)
         no_aggregates = inr acc
    /\ w' = w.
Proof.
  unfold process_flow_logs. intros [Hbody ->]%handlers_returned.
  destruct (open_read flow_log_file (files w)) as [e|lines] eqn:Hopen; [done|].
  apply open_read_ok in Hopen as (content & Hfile & Hascii & ->).
  exists content. done.
Qed.

End classifier_facts.

(** C1: when [process_flow_logs] returns, the tag counts and the untagged
    count add up to the number of lines of the flow log, and so do the
    port/protocol counts. *)
Theorem counts_add_up_to_lines `{Environment} protocol_mapping flow_log_file lookup w acc w' :
  process_flow_logs protocol_mapping flow_log_file lookup w = (Returned acc, w') ->
  exists content,
    files w !! flow_log_file = Some content
    /\ total (tag_counts acc) + untagged_count acc
       = Z.of_nat (length (Py.readlines content))
    /\ Z.of_nat (length (Py.readlines content))
       = total (port_protocol_counts acc).
Proof.
  intros (content & Hfile & _ & Hlines & _)%process_flow_logs_returned.
  exists content. split; [done|].
  apply classify_lines_totals in Hlines. simpl in Hlines. lia.
Qed.

Lemma counts_add_up_to_lines_witness :
  process_flow_logs iana_protocols "flow.log" sample_lookup sample_world
  = (Returned sample_aggregates, sample_world)
  /\ exists content,
       files sample_world !! "flow.log" = Some content
       /\ total (tag_counts sample_aggregates) + untagged_count sample_aggregates
          = Z.of_nat (length (Py.readlines content))
       /\ Z.of_nat (length (Py.readlines content))
          = total (port_protocol_counts sample_aggregates).
Proof.
  assert (process_flow_logs iana_protocols "flow.log" sample_lookup sample_world
          = (Returned sample_aggregates, sample_world)) as Hrun
    by (vm_compute; reflexivity).
  split; [exact Hrun|].
  exact (counts_add_up_to_lines _ _ _ _ _ _ Hrun).
Defined.

(** ** Malformed lines *)

Section malformed_lines.
Context `{Environment}.
Variable protocol_mapping : gmap Z string.
Implicit Types (lookup : lookup_table) (acc : aggregates).

Lemma classify_line_short lookup line acc :
  (length (Py.split line) < 14)%nat ->
  classify_line protocol_mapping lookup line acc = inl InvalidRowLength.
Proof.
  intros Hshort. unfold classify_line.
  by rewrite (proj2 (Nat.ltb_lt _ _) Hshort).
Qed.

Lemma classify_line_not_int lookup line acc protocol :
  (14 <= length (Py.split line))%nat ->
  Py.split line !! 7%nat = Some protocol ->
  Py.int protocol = None ->
  classify_line protocol_mapping lookup line acc
  = inl (ValueError_int protocol).
Proof.
  intros Hlen Hproto Hint. unfold classify_line.
  rewrite (proj2 (Nat.ltb_ge _ _) Hlen), Hproto.
  destruct (Py.split line !! 6%nat) as [dst_port|] eqn:Hport.
  - by rewrite Hint.
  - apply lookup_ge_None in Hport. lia.
Qed.

(** The only exceptions a line can raise. *)
Lemma classify_line_error lookup line acc e :
  classify_line protocol_mapping lookup line acc = inl e -> format_error e.
Proof.
  unfold classify_line.
  destruct (length (Py.split line) <? 14)%nat eqn:Hlen; [by intros [= <-]|].
  apply Nat.ltb_ge in Hlen.
  destruct (Py.split line !! 6%nat) as [dst_port|] eqn:Hport;
    [|apply lookup_ge_None in Hport; lia].
  destruct (Py.split line !! 7%nat) as [protocol|] eqn:Hproto;
    [|apply lookup_ge_None in Hproto; lia].
  destruct (Py.int protocol); [done|]. by intros [= <-].
Qed.

Lemma classify_lines_error lookup lines acc e :
  classify_lines protocol_mapping lookup lines acc = inl e -> format_error e.
Proof.
  revert acc. induction lines as [|line rest IH]; intros acc; simpl; [done|].
  destruct (classify_line _ lookup line acc) as [e'|acc'] eqn:Hline; simpl.
  - intros [= <-]. by eapply classify_line_error.
  - apply IH.
Qed.

(** One line that raises, wherever it stands, makes the whole loop raise:
    no handler inside the loop lets it go on. *)
Lemma classify_lines_raises lookup lines line acc :
  line ∈ lines ->
  (forall acc', exists e,
      classify_line protocol_mapping lookup line acc' = inl e) ->
  exists e, classify_lines protocol_mapping lookup lines acc = inl e.
Proof.
  intros Hin Hbad. revert acc.
  induction lines as [|line' rest IH]; intros acc.
  - by apply elem_of_nil in Hin.
  - simpl.
    destruct (classify_line _ lookup line' acc) as [e|acc'] eqn:Hline;
      simpl; [by exists e|].
    apply elem_of_cons in Hin as [->|Hin]; [|by apply IH].
    destruct (Hbad acc) as [e He]. congruence.
Qed.

Lemma process_flow_logs_aborts flow_log_file lookup w content line :
  files w !! flow_log_file = Some content ->
  line ∈ Py.readlines content ->
  (forall acc, exists e,
      classify_line protocol_mapping lookup line acc = inl e) ->
  exists e,
    format_error e
    /\ process_flow_logs protocol_mapping flow_log_file lookup w
       = (SysExit 1, print (UnexpectedError e) w).
Proof.
  intros Hfile Hin Hbad. unfold process_flow_logs, open_read.
  rewrite Hfile. destruct (Py.is_ascii content).
  - destruct (classify_lines_raises lookup _ _ no_aggregates Hin Hbad)
      as [e He].
    exists e. split; [by eapply classify_lines_error|].
    simpl. rewrite He. simpl.
    apply classify_lines_error in He. by destruct e.
  - by exists UnicodeDecodeError.
Qed.

End malformed_lines.

(** C3: a flow log with a line of fewer than 14 whitespace-separated
    fields makes [process_flow_logs] leave through [sys.exit(1)] on an
    error of the input's format; the line itself raises whatever has been
    counted so far, and nothing is returned. *)
Theorem short_line_aborts `{Environment} protocol_mapping flow_log_file lookup w content line :
  files w !! flow_log_file = Some content ->
  line ∈ Py.readlines content ->
  (length (Py.split line) < 14)%nat ->
  (forall acc,
      classify_line protocol_mapping lookup line acc = inl InvalidRowLength)
  /\ exists e,
       format_error e
       /\ process_flow_logs protocol_mapping flow_log_file lookup w
          = (SysExit 1, print (UnexpectedError e) w).
Proof.
  intros Hfile Hin Hshort.
  assert (forall acc,
    classify_line protocol_mapping lookup line acc = inl InvalidRowLength)
    as Hline by (intros acc; by apply classify_line_short).
  split; [done|].
  eapply process_flow_logs_aborts; [done..|].
  intros acc. eauto.
Qed.

(** C7: a flow log with a line of at least 14 fields whose field 7 is not
    an integer literal makes [process_flow_logs] leave through
    [sys.exit(1)]; the line raises [ValueError], it is neither skipped nor
    counted. *)
Theorem non_integer_protocol_aborts `{Environment} protocol_mapping flow_log_file lookup w
    content line protocol :
  files w !! flow_log_file = Some content ->
  line ∈ Py.readlines content ->
  (14 <= length (Py.split line))%nat ->
  Py.split line !! 7%nat = Some protocol ->
  Py.int protocol = None ->
  (forall acc,
      classify_line protocol_mapping lookup line acc
      = inl (ValueError_int protocol))
  /\ exists e,
       format_error e
       /\ process_flow_logs protocol_mapping flow_log_file lookup w
          = (SysExit 1, print (UnexpectedError e) w).
Proof.
  intros Hfile Hin Hlen Hproto Hint.
  assert (forall acc,
    classify_line protocol_mapping lookup line acc
    = inl (ValueError_int protocol))
    as Hline by (intros acc; by apply classify_line_not_int).
  split; [done|].
  eapply process_flow_logs_aborts; [done..|].
  intros acc. eauto.
Qed.

Lemma short_line_aborts_witness :
  (files short_line_world !! "flow.log" = Some (good_line +:+ short_line +:+ good_line)
   /\ short_line ∈ Py.readlines (good_line +:+ short_line +:+ good_line)
   /\ (length (Py.split short_line) < 14)%nat)
  /\ (forall acc,
        classify_line iana_protocols sample_lookup short_line acc
        = inl InvalidRowLength)
  /\ exists e,
       format_error e
       /\ process_flow_logs iana_protocols "flow.log" sample_lookup short_line_world
          = (SysExit 1, print (UnexpectedError e) short_line_world).
Proof.
  assert (files short_line_world !! "flow.log" = Some (good_line +:+ short_line +:+ good_line))
    as Hfile by (vm_compute; reflexivity).
  assert (short_line ∈ Py.readlines (good_line +:+ short_line +:+ good_line))
    as Hin by (apply (bool_decide_unpack _); vm_compute; exact I).
  assert (length (Py.split short_line) < 14)%nat as Hshort
    by (vm_compute; lia).
  split; [exact (conj Hfile (conj Hin Hshort))|].
  exact (short_line_aborts iana_protocols "flow.log" sample_lookup short_line_world _ _
           Hfile Hin Hshort).
Defined.

Lemma non_integer_protocol_aborts_witness :
  (files named_protocol_world !! "flow.log" = Some (good_line +:+ named_protocol_line)
   /\ named_protocol_line ∈ Py.readlines (good_line +:+ named_protocol_line)
   /\ (14 <= length (Py.split named_protocol_line))%nat
   /\ Py.split named_protocol_line !! 7%nat = Some "tcp"
   /\ Py.int "tcp" = None)
  /\ (forall acc,
        classify_line iana_protocols sample_lookup named_protocol_line acc
        = inl (ValueError_int "tcp"))
  /\ exists e,
       format_error e
       /\ process_flow_logs iana_protocols "flow.log" sample_lookup named_protocol_world
          = (SysExit 1, print (UnexpectedError e) named_protocol_world).
Proof.
  assert (files named_protocol_world !! "flow.log" = Some (good_line +:+ named_protocol_line))
    as Hfile by (vm_compute; reflexivity).
  assert (named_protocol_line
          ∈ Py.readlines (good_line +:+ named_protocol_line))
    as Hin by (apply (bool_decide_unpack _); vm_compute; exact I).
  assert (14 <= length (Py.split named_protocol_line))%nat as Hlen
    by (vm_compute; lia).
  assert (Py.split named_protocol_line !! 7%nat = Some "tcp") as Hproto
    by (vm_compute; reflexivity).
  assert (Py.int "tcp" = None) as Hint by (vm_compute; reflexivity).
  split; [exact (conj Hfile (conj Hin (conj Hlen (conj Hproto Hint))))|].
  exact (non_integer_protocol_aborts iana_protocols "flow.log" sample_lookup named_protocol_world
           _ _ _ Hfile Hin Hlen Hproto Hint).
Defined.

(** ** Protocol numbers outside the table *)

(** C6: a line whose protocol number is not in the protocol table is
    classified under the key [(port, "")]: the line does not raise, the
    port/protocol counter of that key goes up by one, and when the lookup
    table has no entry for the key the untagged count goes up by one while
    the tag counts stay as they are. *)
Theorem unmapped_protocol_number protocol_mapping lookup line acc
    dst_port protocol number :
  (14 <= length (Py.split line))%nat ->
  Py.split line !! 6%nat = Some dst_port ->
  Py.split line !! 7%nat = Some protocol ->
  Py.int protocol = Some number ->
  protocol_mapping !! number = None ->
  exists acc',
    classify_line protocol_mapping lookup line acc = inr acc'
    /\ port_protocol_counts acc'
       = incr (dst_port, "") (port_protocol_counts acc)
    /\ count (dst_port, "") (port_protocol_counts acc')
       = count (dst_port, "") (port_protocol_counts acc) + 1
    /\ (lookup !! (dst_port, "") = None ->
        tag_counts acc' = tag_counts acc
        /\ untagged_count acc' = untagged_count acc + 1).
Proof.
  intros Hlen Hport Hproto Hint Hunmapped. unfold classify_line.
  rewrite (proj2 (Nat.ltb_ge _ _) Hlen), Hport, Hproto, Hint, Hunmapped.
  simpl. eexists. split; [done|].
  destruct (lookup !! (dst_port, "")) as [tag|] eqn:Hkey; simpl;
    rewrite count_incr_eq; done.
Qed.

Lemma unmapped_protocol_number_witness :
  ((14 <= length (Py.split unmapped_protocol_line))%nat
   /\ Py.split unmapped_protocol_line !! 6%nat = Some "80"
   /\ Py.split unmapped_protocol_line !! 7%nat = Some "999"
   /\ Py.int "999" = Some 999
   /\ iana_protocols !! 999 = None)
  /\ exists acc',
       classify_line iana_protocols sample_lookup unmapped_protocol_line
         sample_aggregates = inr acc'
       /\ port_protocol_counts acc'
          = incr ("80", "") (port_protocol_counts sample_aggregates)
       /\ count ("80", "") (port_protocol_counts acc')
          = count ("80", "") (port_protocol_counts sample_aggregates) + 1
       /\ (sample_lookup !! ("80", "") = None ->
           tag_counts acc' = tag_counts sample_aggregates
           /\ untagged_count acc' = untagged_count sample_aggregates + 1).
Proof.
  assert (14 <= length (Py.split unmapped_protocol_line))%nat as Hlen
    by (vm_compute; lia).
  assert (Py.split unmapped_protocol_line !! 6%nat = Some "80") as Hport
    by (vm_compute; reflexivity).
  assert (Py.split unmapped_protocol_line !! 7%nat = Some "999") as Hproto
    by (vm_compute; reflexivity).
  assert (Py.int "999" = Some 999) as Hint by (vm_compute; reflexivity).
  assert (iana_protocols !! 999 = None) as Hunmapped
    by (vm_compute; reflexivity).
  split; [exact (conj Hlen (conj Hport (conj Hproto (conj Hint Hunmapped))))|].
  exact (unmapped_protocol_number iana_protocols sample_lookup _
           sample_aggregates _ _ _ Hlen Hport Hproto Hint Hunmapped).
Defined.

(** ** The lookup loader *)

(** C10: an empty lookup file has no header to skip: [next(reader)] raises
    [StopIteration], the broad handler prints it and the process exits with
    status 1; no mapping is returned. *)
Theorem empty_lookup_file_exits `{Environment} lookup_file w :
  files w !! lookup_file = Some "" ->
  load_lookup_table lookup_file w
  = (SysExit 1, print (UnexpectedError StopIteration) w).
Proof.
  intros Hfile. unfold load_lookup_table, load_lookup_body, open_read.
  rewrite Hfile. reflexivity.
Qed.

Lemma empty_lookup_file_exits_witness :
  files empty_lookup_world !! "lookup.csv" = Some ""
  /\ load_lookup_table "lookup.csv" empty_lookup_world
     = (SysExit 1, print (UnexpectedError StopIteration) empty_lookup_world).
Proof.
  assert (files empty_lookup_world !! "lookup.csv" = Some "") as Hfile
    by (vm_compute; reflexivity).
  split; [exact Hfile|].
  exact (empty_lookup_file_exits "lookup.csv" empty_lookup_world Hfile).
Defined.

Lemma load_row_three (dstport protocol tag : string) (lookup : lookup_table) :
  load_row [dstport; protocol; tag] lookup
  = inr (<[(dstport, Py.lower protocol) := tag]> lookup).
Proof. reflexivity. Qed.

(** The unpacking takes exactly three fields: a longer row passes the
    length guard and raises at the assignment. *)
Lemma load_row_long (row : Csv.row) (lookup : lookup_table) :
  (3 < length row)%nat -> load_row row lookup = inl ValueError_unpack.
Proof.
  intros Hlen. unfold load_row.
  rewrite (proj2 (Nat.ltb_ge _ _)) by lia.
  destruct row as [|a [|b [|c [|d row]]]]; simpl in *; (done || lia).
Qed.

Lemma load_row_short (row : Csv.row) (lookup : lookup_table) :
  (length row < 3)%nat -> load_row row lookup = inl InvalidRowLength.
Proof.
  intros Hlen. unfold load_row. by rewrite (proj2 (Nat.ltb_lt _ _) Hlen).
Qed.

Lemma load_row_ok (row : Csv.row) (lookup lookup' : lookup_table) :
  load_row row lookup = inr lookup' ->
  exists dstport protocol tag : string,
    row = [dstport; protocol; tag]
    /\ lookup' = <[(dstport, Py.lower protocol) := tag]> lookup.
Proof.
  unfold load_row. destruct (length row <? 3)%nat; [done|].
  destruct row as [|a [|b [|c [|d row]]]]; try done.
  intros [= <-]. eauto.
Qed.

Example sample_lookup_loaded :
  load_lookup_table "lookup.csv" sample_world
  = (Returned sample_lookup, sample_world).
Proof. vm_compute. reflexivity. Qed.

Lemma load_rows_other_key (rows : list Csv.row) (err : option Csv.error)
    (lookup lookup' : lookup_table) (key : string * string) :
  load_rows rows err lookup = inr lookup' ->
  (forall row, row ∈ rows -> row_key row ≠ Some key) ->
  lookup' !! key = lookup !! key.
Proof.
  revert lookup. induction rows as [|row rest IH]; intros lookup; simpl.
  - destruct err; [done|]. by intros [= <-].
  - destruct (load_row row lookup) as [e|lookup1] eqn:Hrow; [done|]. simpl.
    intros Hrest Hkeys.
    apply load_row_ok in Hrow as (dstport & protocol & tag & -> & ->).
    rewrite (IH _ Hrest) by (intros r Hr; apply Hkeys; by right).
    apply lookup_insert_ne. intros Hkey.
    apply (Hkeys [dstport; protocol; tag]); [by left|]. simpl. by rewrite Hkey.
Qed.

Lemma load_rows_last_wins (pre post : list Csv.row) (err : option Csv.error)
    (lookup lookup' : lookup_table)
    (dstport protocol tag : string) :
  load_rows (pre ++ [dstport; protocol; tag] :: post) err lookup = inr lookup' ->
  (forall row, row ∈ post -> row_key row ≠ Some (dstport, Py.lower protocol)) ->
  lookup' !! (dstport, Py.lower protocol) = Some tag.
Proof.
  revert lookup. induction pre as [|row pre IH]; intros lookup; simpl.
  - intros Hrest Hkeys.
    rewrite (load_rows_other_key _ _ _ _ _ Hrest Hkeys).
    apply lookup_insert_eq.
  - destruct (load_row row lookup) as [e|lookup1]; [done|]. simpl.
    apply IH.
Qed.

Lemma load_rows_reader_error (rows : list Csv.row) (e : Csv.error)
    (lookup lookup' : lookup_table) :
  load_rows rows (Some e) lookup ≠ inr lookup'.
Proof.
  revert lookup. induction rows as [|row rest IH]; intros lookup; simpl.
  - done.
  - destruct (load_row row lookup); simpl; [done|apply IH].
Qed.

Lemma load_lookup_table_returned `{Environment} (lookup_file : string) (w : world)
    (lookup : lookup_table) (w' : world) :
  load_lookup_table lookup_file w = (Returned lookup, w') ->
  exists content header rows,
    files w !! lookup_file = Some content
    /\ Py.is_ascii content = true
    /\ Csv.reader (Py.readlines content) = (header :: rows, None)
    /\ load_rows rows None ∅ = inr lookup
    /\ w' = w.
Proof.
  unfold load_lookup_table. intros [Hbody ->]%handlers_returned.
  unfold load_lookup_body in Hbody.
  destruct (open_read lookup_file (files w)) as [e|lines] eqn:Hopen; [done|].
  apply open_read_ok in Hopen as (content & Hfile & Hascii & ->).
  simpl in Hbody.
  destruct (Csv.reader (Py.readlines content)) as [[|header rows] [e|]] eqn:Hcsv;
    try done.
  - by apply load_rows_reader_error in Hbody.
  - by exists content, header, rows.
Qed.

(** C5: in the mapping [load_lookup_table] returns, a key holds the tag of
    the last row of the file that carries it; the tags of earlier rows with
    the same key are overwritten. *)
Theorem last_row_wins `{Environment} (lookup_file : string) (w w' : world)
    (lookup : lookup_table) (content : string) (header : Csv.row)
    (pre post : list Csv.row) (dstport protocol tag : string) :
  files w !! lookup_file = Some content ->
  (Csv.reader (Py.readlines content)).1
  = header :: pre ++ [dstport; protocol; tag] :: post ->
  (forall row, row ∈ post -> row_key row ≠ Some (dstport, Py.lower protocol)) ->
  load_lookup_table lookup_file w = (Returned lookup, w') ->
  lookup !! (dstport, Py.lower protocol) = Some tag.
Proof.
  intros Hfile Hrows Hlast
    (content' & header' & rows & Hfile' & _ & Hcsv & Hload & _)%load_lookup_table_returned.
  rewrite Hfile in Hfile'. injection Hfile' as <-.
  rewrite Hcsv in Hrows. simpl in Hrows. injection Hrows as _ ->.
  by eapply load_rows_last_wins.
Qed.

Lemma last_row_wins_witness :
  (files sample_world !! "lookup.csv" = Some sample_lookup_file
   /\ (Csv.reader (Py.readlines sample_lookup_file)).1
      = ["dstport"; "protocol"; "tag"]
        :: [["25"; "tcp"; "sv_P1"]; ["53"; "UDP"; "dns"]]
           ++ ["25"; "TCP"; "mail"] :: [["443"; "tcp"; "https"]]
   /\ (forall row, row ∈ [["443"; "tcp"; "https"]] ->
         row_key row ≠ Some ("25", Py.lower "TCP"))
   /\ load_lookup_table "lookup.csv" sample_world
      = (Returned sample_lookup, sample_world))
  /\ sample_lookup !! ("25", Py.lower "TCP") = Some "mail".
Proof.
  assert (files sample_world !! "lookup.csv" = Some sample_lookup_file)
    as Hfile by (vm_compute; reflexivity).
  assert ((Csv.reader (Py.readlines sample_lookup_file)).1
          = ["dstport"; "protocol"; "tag"]
            :: [["25"; "tcp"; "sv_P1"]; ["53"; "UDP"; "dns"]]
               ++ ["25"; "TCP"; "mail"] :: [["443"; "tcp"; "https"]])
    as Hrows by (vm_compute; reflexivity).
  assert (forall row, row ∈ [["443"; "tcp"; "https"]] ->
            row_key row ≠ Some ("25", Py.lower "TCP")) as Hlast
    by (intros row ->%list_elem_of_singleton; vm_compute; congruence).
  assert (load_lookup_table "lookup.csv" sample_world
          = (Returned sample_lookup, sample_world)) as Hload
    by (vm_compute; reflexivity).
  split; [exact (conj Hfile (conj Hrows (conj Hlast Hload)))|].
  exact (last_row_wins "lookup.csv" sample_world sample_world sample_lookup
           _ _ _ _ _ _ _ Hfile Hrows Hlast Hload).
Defined.

(** Any row of more than three fields, anywhere after the header, stops
    the loader. *)
Lemma load_rows_long_row (rows : list Csv.row) (err : option Csv.error)
    (lookup : lookup_table) (row : Csv.row) :
  row ∈ rows -> (3 < length row)%nat ->
  exists e, load_rows rows err lookup = inl e.
Proof.
  intros Hin Hlong. revert lookup.
  induction rows as [|row' rest IH]; intros lookup.
  - by apply elem_of_nil in Hin.
  - simpl. destruct (load_row row' lookup) as [e|lookup1] eqn:Hrow;
      simpl; [by exists e|].
    apply elem_of_cons in Hin as [->|Hin]; [|by apply IH].
    by rewrite load_row_long in Hrow.
Qed.

Lemma long_row_exits `{Environment} (lookup_file : string) (w : world) (content : string)
    (header : Csv.row) (rows : list Csv.row) (err : option Csv.error)
    (row : Csv.row) :
  files w !! lookup_file = Some content ->
  Csv.reader (Py.readlines content) = (header :: rows, err) ->
  row ∈ rows -> (3 < length row)%nat ->
  exists m, load_lookup_table lookup_file w = (SysExit 1, print m w).
Proof.
  intros Hfile Hcsv Hin Hlong.
  unfold load_lookup_table, load_lookup_body, open_read. rewrite Hfile.
  destruct (Py.is_ascii content); [|by eexists].
  simpl. rewrite Hcsv.
  destruct (load_rows_long_row rows err ∅ row Hin Hlong) as [e ->].
  by eexists.
Qed.

(** C2: a row with a fourth field.  The length guard lets it through and
    the unpacking into three names raises [ValueError]; the loader prints
    the error and exits with status 1 instead of storing the row. *)
Theorem four_field_row_exits :
  (Csv.reader (Py.readlines four_field_lookup_file)).1
  = [["dstport"; "protocol"; "tag"]; ["25"; "tcp"; "sv_P1"; "mail"]]
  /\ load_lookup_table "lookup.csv" four_field_world
     = (SysExit 1, print (UnexpectedError ValueError_unpack) four_field_world).
Proof. split; vm_compute; reflexivity. Qed.

(** ** The report writer *)

Lemma string_app_cons a s t : String a s +:+ t = String a (s +:+ t).
Proof. reflexivity. Qed.

Lemma string_app_nil_r s : s +:+ "" = s.
Proof. induction s as [|a s IH]; [done|]. by rewrite string_app_cons, IH. Qed.

Lemma string_app_assoc s t u : (s +:+ t) +:+ u = s +:+ t +:+ u.
Proof.
  induction s as [|a s IH]; [done|]. by rewrite !string_app_cons, IH.
Qed.

Lemma is_ascii_app s t :
  Py.is_ascii (s +:+ t) = Py.is_ascii s && Py.is_ascii t.
Proof.
  induction s as [|a s IH]; [done|].
  rewrite string_app_cons. simpl. rewrite IH. by rewrite andb_assoc.
Qed.

Lemma is_ascii_pretty_N_go (x : N) s :
  Py.is_ascii s = true -> Py.is_ascii (pretty_N_go x s) = true.
Proof.
  revert s. induction (N.lt_wf_0 x) as [x _ IH]; intros s Hs.
  destruct (decide (x = 0%N)) as [->|Hx]; [by rewrite pretty_N_go_0|].
  rewrite pretty_N_go_step by lia.
  apply IH; [by apply N.div_lt; lia|].
  simpl. rewrite Hs, andb_true_r.
  unfold pretty_N_char. by repeat case_match.
Qed.

Lemma is_ascii_pretty_N (x : N) : Py.is_ascii (pretty x) = true.
Proof.
  unfold pretty, pretty_N. case_decide; [done|].
  by apply is_ascii_pretty_N_go.
Qed.

Lemma is_ascii_pretty_Z (x : Z) : Py.is_ascii (pretty x) = true.
Proof.
  destruct x as [|p|p]; [done|apply is_ascii_pretty_N|].
  change (pretty (Z.neg p)) with ("-" +:+ pretty (N.pos p)).
  rewrite is_ascii_app. by rewrite is_ascii_pretty_N.
Qed.

Lemma unlines_app l1 l2 : unlines (l1 ++ l2) = unlines l1 +:+ unlines l2.
Proof.
  induction l1 as [|line l1 IH]; [done|].
  simpl. by rewrite IH, !string_app_assoc.
Qed.

Lemma fwrite_ascii text s :
  Py.is_ascii text = true ->
  fwrite text (Handle s None) = Handle (s +:+ text) None.
Proof. intros Htext. unfold fwrite. simpl. by rewrite Htext. Qed.

Lemma forallb_Forall {A} (f : A -> bool) (P : A -> Prop) (l : list A) :
  (forall x, f x = true -> P x) -> forallb f l = true -> Forall P l.
Proof.
  intros HP. induction l as [|x l IH]; simpl; [done|].
  intros [Hx Hl]%andb_true_iff. constructor; auto.
Qed.

(** A loop of writes whose lines are all ASCII appends those lines. *)
Lemma write_loop {A} (body : handle -> A -> handle) (line : A -> string)
    (items : list A) s :
  (forall file item, body file item = fwrite (line item +:+ nl) file) ->
  Forall (fun item => Py.is_ascii (line item) = true) items ->
  foldl body (Handle s None) items
  = Handle (s +:+ unlines (line <$> items)) None.
Proof.
  intros Hbody Hascii. revert s.
  induction Hascii as [|item items Hitem _ IH]; intros s.
  - simpl. by rewrite string_app_nil_r.
  - simpl. rewrite Hbody, fwrite_ascii by (by rewrite is_ascii_app, Hitem).
    rewrite IH. csimpl. by rewrite !string_app_assoc.
Qed.

Lemma write_output_body_ascii tag_counts port_protocol_counts untagged_count :
  ascii_keys tag_counts port_protocol_counts = true ->
  write_output_body tag_counts port_protocol_counts untagged_count
  = Handle
      (unlines (report_lines tag_counts port_protocol_counts untagged_count))
      None.
Proof.
  unfold ascii_keys. intros [Htags Hpairs]%andb_true_iff.
  unfold write_output_body, open_write.
  rewrite !fwrite_ascii by done.
  rewrite (write_loop _ tag_record).
  2:{ intros file [tag n]. unfold tag_record. simpl.
      by rewrite !string_app_assoc. }
  2:{ eapply forallb_Forall; [|exact Htags].
      intros [tag n] Htag. unfold tag_record. simpl in *.
      by rewrite !is_ascii_app, Htag, is_ascii_pretty_Z. }
  rewrite fwrite_ascii
    by (by rewrite !is_ascii_app, is_ascii_pretty_Z).
  rewrite !fwrite_ascii by done.
  rewrite (write_loop _ port_protocol_record).
  2:{ intros file [[port protocol] n]. unfold port_protocol_record. simpl.
      by rewrite !string_app_assoc. }
  2:{ eapply forallb_Forall; [|exact Hpairs].
      intros [[port protocol] n] [Hport Hproto]%andb_true_iff.
      unfold port_protocol_record. simpl in *.
      by rewrite !is_ascii_app, Hport, Hproto, is_ascii_pretty_Z. }
  f_equal. unfold report_lines. rewrite !unlines_app. simpl.
  by rewrite !string_app_assoc, ?string_app_nil_r.
Qed.

Lemma files_write_file `{Environment} path content w :
  write_error path = None ->
  files (write_file path content w) = <[path := content]> (files w).
Proof.
  intros Hpath. unfold files, write_file. simpl.
  apply map_filter_insert_True. unfold writable. simpl. by rewrite Hpath.
Qed.

Lemma files_unwritable `{Environment} path e w :
  write_error path = Some e -> files w !! path = None.
Proof.
  intros Hpath. unfold files. apply map_lookup_filter_None. right.
  intros content _. unfold writable. simpl. by rewrite Hpath.
Qed.

Lemma files_print `{Environment} m w : files (print m w) = files w.
Proof. reflexivity. Qed.

Lemma single_line_app s t :
  single_line (s +:+ t) = single_line s && single_line t.
Proof.
  induction s as [|a s IH]; [done|].
  rewrite string_app_cons. simpl. rewrite IH. by rewrite !andb_assoc.
Qed.

Lemma single_line_pretty_N_go (x : N) s :
  single_line s = true -> single_line (pretty_N_go x s) = true.
Proof.
  revert s. induction (N.lt_wf_0 x) as [x _ IH]; intros s Hs.
  destruct (decide (x = 0%N)) as [->|Hx]; [by rewrite pretty_N_go_0|].
  rewrite pretty_N_go_step by lia.
  apply IH; [by apply N.div_lt; lia|].
  simpl. rewrite Hs, andb_true_r.
  unfold pretty_N_char. by repeat case_match.
Qed.

Lemma single_line_pretty_N (x : N) : single_line (pretty x) = true.
Proof.
  unfold pretty, pretty_N. case_decide; [done|].
  by apply single_line_pretty_N_go.
Qed.

Lemma single_line_pretty_Z (x : Z) : single_line (pretty x) = true.
Proof.
  destruct x as [|p|p]; [done|apply single_line_pretty_N|].
  change (pretty (Z.neg p)) with ("-" +:+ pretty (N.pos p)).
  rewrite single_line_app. by rewrite single_line_pretty_N.
Qed.

Lemma rev_app_rev_app s t u :
  String.rev_app (String.rev_app s t) u = String.rev_app t (s +:+ u).
Proof.
  revert t u. induction s as [|a s IH]; intros t u; [done|].
  simpl. rewrite IH. by rewrite string_app_cons.
Qed.

(** Read back, a line without line breaks that was written with its line
    feed is that line. *)
Lemma lines_go_single_line cur line rest :
  single_line line = true ->
  Py.lines_go cur false (line +:+ nl +:+ rest)
  = String.rev (String Py.LF (String.rev_app line cur))
    :: Py.lines_go EmptyString false rest.
Proof.
  revert cur. induction line as [|c line IH]; intros cur Hline.
  - reflexivity.
  - simpl in Hline.
    apply andb_true_iff in Hline as [[HLF HCR]%andb_true_iff Hline].
    rewrite string_app_cons. simpl.
    apply negb_true_iff in HLF, HCR. rewrite HLF, HCR.
    by rewrite IH.
Qed.

Lemma readlines_unlines lines :
  Forall (fun line => single_line line = true) lines ->
  Py.readlines (unlines lines) = (fun line => line +:+ nl) <$> lines.
Proof.
  unfold Py.readlines. induction 1 as [|line lines Hline _ IH]; [done|].
  simpl. rewrite lines_go_single_line by done. rewrite IH. csimpl.
  f_equal. unfold String.rev. simpl.
  by rewrite rev_app_rev_app.
Qed.

Lemma report_lines_single_line tag_counts port_protocol_counts untagged_count :
  single_line_keys tag_counts port_protocol_counts = true ->
  Forall (fun line => single_line line = true)
    (report_lines tag_counts port_protocol_counts untagged_count).
Proof.
  unfold single_line_keys. intros [Htags Hpairs]%andb_true_iff.
  unfold report_lines. rewrite !Forall_app. split_and!.
  - by repeat constructor.
  - apply Forall_fmap. eapply forallb_Forall; [|exact Htags].
    intros [tag n] Htag. unfold tag_record. simpl in *.
    by rewrite !single_line_app, Htag, single_line_pretty_Z.
  - constructor; [|done].
    by rewrite single_line_app, single_line_pretty_Z.
  - by repeat constructor.
  - by repeat constructor.
  - apply Forall_fmap. eapply forallb_Forall; [|exact Hpairs].
    intros [[port protocol] n] [Hport Hproto]%andb_true_iff.
    unfold port_protocol_record. simpl in *.
    by rewrite !single_line_app, Hport, Hproto, single_line_pretty_Z.
Qed.

Lemma occurrences_app {A} `{EqDecision A} (x : A) l1 l2 :
  occurrences x (l1 ++ l2) = occurrences x l1 + occurrences x l2.
Proof. induction l1 as [|y l1 IH]; simpl; [done|]. rewrite IH. lia. Qed.

Lemma occurrences_absent {A} `{EqDecision A} (x : A) l :
  Forall (fun y => x ≠ y) l -> occurrences x l = 0.
Proof.
  induction 1 as [|y l Hy _ IH]; simpl; [done|].
  by rewrite decide_False, IH.
Qed.

Lemma record_not_empty s t : "" ≠ s +:+ "," +:+ t.
Proof. by destruct s. Qed.

(** The empty line between the sections is the only one. *)
Lemma report_lines_one_empty tag_counts port_protocol_counts untagged_count :
  occurrences ""
    (report_lines tag_counts port_protocol_counts untagged_count) = 1.
Proof.
  unfold report_lines. rewrite !occurrences_app.
  rewrite (occurrences_absent _ (tag_record <$> _)).
  2:{ apply Forall_fmap, Forall_forall. intros item _. apply record_not_empty. }
  rewrite (occurrences_absent _ (port_protocol_record <$> _)).
  2:{ apply Forall_fmap, Forall_forall. intros item _. apply record_not_empty. }
  pose proof (record_not_empty "Untagged" (pretty untagged_count)) as Hrecord.
  cbn [occurrences app]. repeat case_decide; done.
Qed.

(** C8, for keys that are ASCII text without line breaks and an output
    path the environment lets the script open: [write_output] returns and
    leaves at the output path exactly the lines of [report_lines], each
    ended by a line feed, so that the file reads back as those lines: the
    two headers, a record per tag in the order of the dictionary, the
    [Untagged] record, one empty line and no other, the two headers of the
    second section, a record per port/protocol pair in the order of the
    dictionary.  Whatever the file held before is replaced. *)
Theorem report_layout `{Environment} tag_counts port_protocol_counts
    untagged_count output_file w :
  ascii_keys tag_counts port_protocol_counts = true ->
  single_line_keys tag_counts port_protocol_counts = true ->
  write_error output_file = None ->
  let report :=
    report_lines tag_counts port_protocol_counts untagged_count in
  let after :=
    write_output tag_counts port_protocol_counts untagged_count output_file
      w in
  after = (Returned (), write_file output_file (unlines report) w)
  /\ files after.2 !! output_file = Some (unlines report)
  /\ Py.readlines (unlines report) = (fun line => line +:+ nl) <$> report
  /\ occurrences "" report = 1.
Proof.
  intros Hascii Hsingle Hopen report after.
  assert (after = (Returned (), write_file output_file (unlines report) w))
    as Hafter.
  { unfold after, write_output. rewrite Hopen.
    by rewrite write_output_body_ascii. }
  split_and!.
  - exact Hafter.
  - rewrite Hafter. simpl. rewrite files_write_file by done.
    apply lookup_insert_eq.
  - by apply readlines_unlines, report_lines_single_line.
  - apply report_lines_one_empty.
Qed.

Example sample_keys_are_plain :
  ascii_keys (tag_counts sample_aggregates)
    (port_protocol_counts sample_aggregates) = true
  /\ single_line_keys (tag_counts sample_aggregates)
       (port_protocol_counts sample_aggregates) = true.
Proof. split; vm_compute; reflexivity. Qed.

Lemma report_layout_witness :
  (ascii_keys (tag_counts sample_aggregates)
     (port_protocol_counts sample_aggregates) = true
   /\ single_line_keys (tag_counts sample_aggregates)
        (port_protocol_counts sample_aggregates) = true
   /\ write_error "out.txt" = None)
  /\ write_output (tag_counts sample_aggregates)
       (port_protocol_counts sample_aggregates)
       (untagged_count sample_aggregates) "out.txt" sample_world
     = (Returned (), write_file "out.txt" (unlines sample_report) sample_world)
  /\ files (write_output (tag_counts sample_aggregates)
              (port_protocol_counts sample_aggregates)
              (untagged_count sample_aggregates) "out.txt" sample_world).2
       !! "out.txt" = Some (unlines sample_report)
  /\ Py.readlines (unlines sample_report)
     = (fun line => line +:+ nl) <$> sample_report
  /\ occurrences "" sample_report = 1.
Proof.
  pose proof sample_keys_are_plain as [Hascii Hsingle].
  assert (write_error "out.txt" = None) as Hopen by reflexivity.
  split; [exact (conj Hascii (conj Hsingle Hopen))|].
  exact (report_layout _ _ _ "out.txt" sample_world Hascii Hsingle Hopen).
Defined.

(** Outside those conditions the layout is lost, in three ways.  A tag
    outside ASCII stops the writer at the record of that tag: the call ends
    in [UnicodeEncodeError] and the file holds the two headers of the first
    section only.  A tag with two line feeds in it is written as it is:
    the call returns, and the file has two empty lines and nine lines in
    all where the layout has seven.  An output path in a directory that
    does not exist makes [open] raise: the call ends in
    [FileNotFoundError] and there is no file. *)
Lemma write_output_outside_the_layout :
  (write_output [(accented_tag, 1)] [] 0 "out.txt" empty_world
   = (Uncaught UnicodeEncodeError,
      World {[ "out.txt" := "Tag Counts:" +:+ nl +:+ "Tag,Count" +:+ nl ]} [])
   /\ files (write_output [(accented_tag, 1)] [] 0 "out.txt" empty_world).2
        !! "out.txt"
      ≠ Some (unlines (report_lines [(accented_tag, 1)] [] 0)))
  /\ (exists content,
        write_output [(line_feed_tag, 1)] [] 0 "out.txt" empty_world
        = (Returned (), write_file "out.txt" content empty_world)
        /\ length (report_lines [(line_feed_tag, 1)] [] 0) = 7%nat
        /\ length (Py.readlines content) = 9%nat
        /\ occurrences nl (Py.readlines content) = 2)
  /\ (write_output (tag_counts sample_aggregates)
        (port_protocol_counts sample_aggregates)
        (untagged_count sample_aggregates) "nodir/out.txt" empty_world
      = (Uncaught FileNotFoundError, empty_world)
      /\ files empty_world !! "nodir/out.txt" = None).
Proof.
  split_and!.
  - vm_compute; reflexivity.
  - vm_compute; congruence.
  - eexists. split_and!; vm_compute; reflexivity.
  - vm_compute; reflexivity.
  - vm_compute; reflexivity.
Qed.

(** ** The whole script *)

Lemma open_read_ext `{Environment} path (fs1 fs2 : gmap string string) :
  fs1 !! path = fs2 !! path -> open_read path fs1 = open_read path fs2.
Proof. unfold open_read. by intros ->. Qed.

(** A reader either returns in the world it was called in, or prints one
    message and exits with status 1; it never touches a file. *)
Lemma handlers_cases {A} (m : message) (body : exn + A) w :
  (exists a, body = inr a /\ handlers m body w = (Returned a, w))
  \/ (exists e, body = inl e
        /\ handlers m body w = (SysExit 1, print (error_message m e) w)).
Proof. destruct body as [e|a]; [right|left]; eauto. Qed.

Section main_facts.
Context `{Environment}.
Variable protocol_mapping : gmap Z string.
Implicit Types (w : world) (lookup : lookup_table).

Lemma main_unfold a0 flow_log_file lookup_file output_file w :
  main protocol_mapping [a0; flow_log_file; lookup_file; output_file] w
  = match load_lookup_table lookup_file w with
    | (Returned lookup, w1) =>
        match process_flow_logs protocol_mapping flow_log_file lookup w1 with
        | (Returned acc, w2) =>
            match write_output (tag_counts acc) (port_protocol_counts acc)
                    (untagged_count acc) output_file w2 with
            | (Returned _, w3) =>
                (Returned (), print (ProcessingComplete output_file) w3)
            | (SysExit code, w3) => (SysExit code, w3)
            | (Uncaught e, w3) => (Uncaught e, w3)
            end
        | (SysExit code, w2) => (SysExit code, w2)
        | (Uncaught e, w2) => (Uncaught e, w2)
        end
    | (SysExit code, w1) => (SysExit code, w1)
    | (Uncaught e, w1) => (Uncaught e, w1)
    end.
Proof.
  unfold main, mbind, M_bind.
  destruct (load_lookup_table lookup_file w) as [[lookup|code|e] w1]; [|done..].
  destruct (process_flow_logs _ flow_log_file lookup w1)
    as [[acc|code|e] w2]; [|done..].
  by destruct (write_output _ _ _ output_file w2) as [[[]|code|e] w3].
Qed.

Lemma load_lookup_table_cases lookup_file w :
  (exists lookup, load_lookup_table lookup_file w = (Returned lookup, w))
  \/ (exists m, load_lookup_table lookup_file w = (SysExit 1, print m w)).
Proof.
  unfold load_lookup_table.
  destruct (handlers_cases (LookupNotFound lookup_file)
              (load_lookup_body lookup_file (files w)) w)
    as [(a & _ & ->)|(e & _ & ->)]; eauto.
Qed.

Lemma process_flow_logs_cases flow_log_file lookup w :
  (exists acc,
      process_flow_logs protocol_mapping flow_log_file lookup w
      = (Returned acc, w))
  \/ (exists m,
        process_flow_logs protocol_mapping flow_log_file lookup w
        = (SysExit 1, print m w)).
Proof.
  unfold process_flow_logs.
  match goal with
  | |- context [handlers ?m ?body w] =>
      destruct (handlers_cases m body w) as [(a & _ & ->)|(e & _ & ->)]
  end; eauto.
Qed.

(** X19: the report is written only by a run in which both readers
    returned. *)
Lemma report_written_only_after_success a0 flow_log_file lookup_file
    output_file w :
  files (main protocol_mapping
           [a0; flow_log_file; lookup_file; output_file] w).2 ≠ files w ->
  exists lookup acc,
    load_lookup_table lookup_file w = (Returned lookup, w)
    /\ process_flow_logs protocol_mapping flow_log_file lookup w
       = (Returned acc, w).
Proof.
  rewrite main_unfold.
  destruct (load_lookup_table_cases lookup_file w) as [[lookup ->]|[m ->]];
    [|done].
  destruct (process_flow_logs_cases flow_log_file lookup w)
    as [[acc Hacc]|[m Hm]].
  - rewrite Hacc. eauto.
  - by rewrite Hm.
Qed.

End main_facts.

(** C4: when the lookup loader fails, or the loader returns and the
    classifier fails, the script ends with exit status 1 and the files are
    what they were: no report appears at the output path and a file already
    there keeps its contents. *)
Theorem failures_leave_no_report `{Environment} protocol_mapping a0 flow_log_file lookup_file
    output_file w :
  returned (load_lookup_table lookup_file w).1 = false
  \/ (exists (lookup : lookup_table) w1,
        load_lookup_table lookup_file w = (Returned lookup, w1)
        /\ returned
             (process_flow_logs protocol_mapping flow_log_file lookup w1).1
           = false) ->
  exists w',
    main protocol_mapping [a0; flow_log_file; lookup_file; output_file] w
    = (SysExit 1, w')
    /\ files w' = files w.
Proof.
  rewrite main_unfold.
  intros [Hload|(lookup & w1 & Hload & Hclassify)].
  - destruct (load_lookup_table_cases lookup_file w) as [[lookup Heq]|[m Heq]];
      rewrite Heq in *; [done|].
    by eexists.
  - rewrite Hload.
    destruct (load_lookup_table_cases lookup_file w) as [[lookup' Heq]|[m Heq]];
      rewrite Heq in Hload; [|done].
    injection Hload as -> <-.
    destruct (process_flow_logs_cases protocol_mapping flow_log_file lookup w)
      as [[acc Heq']|[m Heq']]; rewrite Heq' in *; [done|].
    by eexists.
Qed.

Lemma failures_leave_no_report_witness :
  (returned (load_lookup_table "lookup.csv" short_line_world).1 = false
   \/ (exists (lookup : lookup_table) w1,
         load_lookup_table "lookup.csv" short_line_world = (Returned lookup, w1)
         /\ returned
              (process_flow_logs iana_protocols "flow.log" lookup w1).1
            = false))
  /\ exists w',
       main iana_protocols sample_argv short_line_world = (SysExit 1, w')
       /\ files w' = files short_line_world.
Proof.
  assert (returned (load_lookup_table "lookup.csv" short_line_world).1 = false
          \/ (exists (lookup : lookup_table) w1,
                load_lookup_table "lookup.csv" short_line_world
                = (Returned lookup, w1)
                /\ returned
                     (process_flow_logs iana_protocols "flow.log" lookup w1).1
                   = false)) as Hfails.
  { right. exists sample_lookup, short_line_world.
    split; vm_compute; reflexivity. }
  split; [exact Hfails|].
  exact (failures_leave_no_report iana_protocols "logParser.py" "flow.log"
           "lookup.csv" "out.txt" short_line_world Hfails).
Defined.

Example earlier_report_survives :
  main iana_protocols sample_argv no_flow_log_world
  = (SysExit 1, print (FlowLogNotFound "flow.log") no_flow_log_world)
  /\ files (main iana_protocols sample_argv short_line_world).2 !! "out.txt"
     = Some "an earlier report".
Proof. split; vm_compute; reflexivity. Qed.

(** The wrong number of arguments: the usage text and exit status 1. *)
Example usage_error :
  main iana_protocols ["logParser.py"; "flow.log"; "lookup.csv"] sample_world
  = (SysExit 1, print Usage sample_world).
Proof. reflexivity. Qed.

(** C9: the script reads nothing but the two input files.  Two worlds that
    agree on the lookup file and on the flow log give the same mapping, the
    same outcome and the same printed messages, and wherever the run gets
    to the writer the same bytes at the output path. *)
Theorem runs_are_deterministic `{Environment} protocol_mapping a0 flow_log_file lookup_file
    output_file w1 w2 :
  files w1 !! lookup_file = files w2 !! lookup_file ->
  files w1 !! flow_log_file = files w2 !! flow_log_file ->
  let argv := [a0; flow_log_file; lookup_file; output_file] in
  (load_lookup_table lookup_file w1).1 = (load_lookup_table lookup_file w2).1
  /\ (main protocol_mapping argv w1).1 = (main protocol_mapping argv w2).1
  /\ (exists printed,
        stdout (main protocol_mapping argv w1).2 = stdout w1 ++ printed
        /\ stdout (main protocol_mapping argv w2).2 = stdout w2 ++ printed)
  /\ ((forall code, (main protocol_mapping argv w1).1 ≠ SysExit code) ->
      files (main protocol_mapping argv w1).2 !! output_file
      = files (main protocol_mapping argv w2).2 !! output_file).
Proof.
  intros Hlookup Hlog argv. unfold argv. clear argv.
  rewrite !main_unfold.
  unfold load_lookup_table, load_lookup_body.
  rewrite (open_read_ext lookup_file _ _ Hlookup).
  destruct (lines ← open_read lookup_file (files w2);
            match Csv.reader lines with
            | ([], None) => inl StopIteration
            | ([], Some e) => inl (CsvError e)
            | (_ :: rows, err) => load_rows rows err ∅
            end) as [e|lookup]; simpl.
  { split_and!; [done|done|by eexists|]. intros Hexit. by destruct (Hexit 1). }
  unfold process_flow_logs.
  rewrite (open_read_ext flow_log_file _ _ Hlog).
  destruct (lines ← open_read flow_log_file (files w2);
            classify_lines protocol_mapping lookup lines no_aggregates)
    as [e|acc]; simpl.
  { split_and!; [done|done|by eexists|]. intros Hexit. by destruct (Hexit 1). }
  unfold write_output.
  destruct (write_error output_file) as [e|] eqn:Hopen; simpl.
  { split_and!; [done|done|exists []; by rewrite !app_nil_r|].
    intros _. by rewrite !(files_unwritable _ e). }
  destruct (failed (write_output_body _ _ _)) as [e|]; simpl.
  - split_and!; [done|done|exists []; by rewrite !app_nil_r|].
    intros _. rewrite !files_write_file by done.
    by rewrite !lookup_insert_eq.
  - split_and!; [done|done|by eexists|].
    intros _. rewrite !files_print, !files_write_file by done.
    by rewrite !lookup_insert_eq.
Qed.

Lemma runs_are_deterministic_witness :
  (files sample_world !! "lookup.csv"
   = files (world_with_flow_log sample_flow_log) !! "lookup.csv"
   /\ files sample_world !! "flow.log"
      = files (world_with_flow_log sample_flow_log) !! "flow.log")
  /\ (load_lookup_table "lookup.csv" sample_world).1
     = (load_lookup_table "lookup.csv" (world_with_flow_log sample_flow_log)).1
  /\ (main iana_protocols sample_argv sample_world).1
     = (main iana_protocols sample_argv (world_with_flow_log sample_flow_log)).1
  /\ (exists printed,
        stdout (main iana_protocols sample_argv sample_world).2
        = stdout sample_world ++ printed
        /\ stdout (main iana_protocols sample_argv
                     (world_with_flow_log sample_flow_log)).2
           = stdout (world_with_flow_log sample_flow_log) ++ printed)
  /\ ((forall code,
         (main iana_protocols sample_argv sample_world).1 ≠ SysExit code) ->
      files (main iana_protocols sample_argv sample_world).2 !! "out.txt"
      = files (main iana_protocols sample_argv
                 (world_with_flow_log sample_flow_log)).2 !! "out.txt").
Proof.
  assert (files sample_world !! "lookup.csv"
          = files (world_with_flow_log sample_flow_log) !! "lookup.csv")
    as Hlookup by (vm_compute; reflexivity).
  assert (files sample_world !! "flow.log"
          = files (world_with_flow_log sample_flow_log) !! "flow.log")
    as Hlog by (vm_compute; reflexivity).
  split; [exact (conj Hlookup Hlog)|].
  exact (runs_are_deterministic iana_protocols "logParser.py" "flow.log"
           "lookup.csv" "out.txt" sample_world
           (world_with_flow_log sample_flow_log) Hlookup Hlog).
Defined.

(** ** ASCII in, ASCII out

    Everything the script reads is decoded as ASCII, so every key and tag
    it hands to the writer is ASCII text and the writer cannot fail on the
    script's own aggregates. *)

Lemma is_ascii_rev_app s t :
  Py.is_ascii (String.rev_app s t) = Py.is_ascii s && Py.is_ascii t.
Proof.
  revert t. induction s as [|a s IH]; intros t; simpl; [done|].
  rewrite IH. simpl. by destruct (Py.is_ascii_char a), (Py.is_ascii s).
Qed.

Lemma is_ascii_rev s : Py.is_ascii (String.rev s) = Py.is_ascii s.
Proof. unfold String.rev. rewrite is_ascii_rev_app. simpl. apply andb_true_r. Qed.

Lemma is_ascii_char_lower c :
  Py.is_ascii_char (Py.lower_char c) = Py.is_ascii_char c.
Proof. by destruct c as [[] [] [] [] [] [] [] []]. Qed.

Lemma is_ascii_lower s : Py.is_ascii (Py.lower s) = Py.is_ascii s.
Proof.
  induction s as [|a s IH]; simpl; [done|].
  by rewrite is_ascii_char_lower, IH.
Qed.

Lemma flush_ascii cur : ascii_text cur -> Forall ascii_text (Py.flush cur).
Proof.
  intros Hcur. destruct cur as [|a cur]; simpl; [done|].
  constructor; [|done]. unfold ascii_text. by rewrite is_ascii_rev.
Qed.

Lemma split_go_ascii cur s :
  ascii_text cur -> ascii_text s -> Forall ascii_text (Py.split_go cur s).
Proof.
  unfold ascii_text. revert cur.
  induction s as [|a s IH]; intros cur Hcur Hs; simpl.
  - by apply flush_ascii.
  - simpl in Hs. apply andb_true_iff in Hs as [Ha Hs].
    destruct (Py.isspace a).
    + apply Forall_app. split; [by apply flush_ascii|by apply IH].
    + apply IH; [|done]. simpl. by rewrite Ha.
Qed.

Lemma split_ascii s : ascii_text s -> Forall ascii_text (Py.split s).
Proof. by apply split_go_ascii. Qed.

Lemma lines_go_ascii cur skip s :
  ascii_text cur -> ascii_text s -> Forall ascii_text (Py.lines_go cur skip s).
Proof.
  unfold ascii_text. revert cur skip.
  induction s as [|a s IH]; intros cur skip Hcur Hs; simpl.
  - by apply flush_ascii.
  - simpl in Hs. apply andb_true_iff in Hs as [Ha Hs].
    assert (ascii_text (String.rev (String Py.LF cur))) as Hline
      by (unfold ascii_text; rewrite is_ascii_rev; simpl; done).
    destruct (Ascii.eqb a Py.LF); [destruct skip|destruct (Ascii.eqb a Py.CR)].
    + by apply IH.
    + constructor; [done|by apply IH].
    + constructor; [done|by apply IH].
    + apply IH; [|done]. simpl. by rewrite Ha.
Qed.

Lemma readlines_ascii s : ascii_text s -> Forall ascii_text (Py.readlines s).
Proof. by apply lines_go_ascii. Qed.

Lemma open_read_ascii `{Environment} path fs lines :
  open_read path fs = inr lines -> Forall ascii_text lines.
Proof.
  intros (content & _ & Hascii & ->)%open_read_ok. by apply readlines_ascii.
Qed.

Lemma save_field_ascii p : ascii_parser p -> ascii_parser (Csv.save_field p).
Proof.
  intros [Hfields Hfield]. split; simpl; [|done].
  constructor; [|done]. unfold ascii_text. by rewrite is_ascii_rev.
Qed.

Lemma set_state_ascii s p : ascii_parser p -> ascii_parser (Csv.set_state s p).
Proof. done. Qed.

Lemma add_char_ascii a p p' :
  ascii_parser p -> Py.is_ascii_char a = true ->
  Csv.add_char a p = inr p' -> ascii_parser p'.
Proof.
  intros [Hfields Hfield] Ha. unfold Csv.add_char.
  destruct (Csv.field_limit <=? Csv.field_len p)%N; [done|].
  intros [= <-]. split; simpl; [done|].
  unfold ascii_text. simpl. by rewrite Ha.
Qed.

Ltac ascii_parser_step :=
  intros [= <-];
  repeat match goal with
    | |- ascii_parser (Csv.set_state _ _) => apply set_state_ascii
    | |- ascii_parser (Csv.save_field _) => apply save_field_ascii
    end;
  assumption.

Lemma then_state_ascii s r p' :
  (forall p, r = inr p -> ascii_parser p) ->
  Csv.then_state s r = inr p' -> ascii_parser p'.
Proof.
  intros Hr. destruct r as [e|p]; simpl; [done|].
  intros [= <-]. by apply set_state_ascii, Hr.
Qed.

Lemma start_field_ascii p c p' :
  ascii_parser p ->
  (forall a, c = Some a -> Py.is_ascii_char a = true) ->
  Csv.start_field c p = inr p' -> ascii_parser p'.
Proof.
  intros Hp Hc. unfold Csv.start_field, Csv.end_of_field.
  destruct c as [a|]; [|by ascii_parser_step].
  specialize (Hc a eq_refl).
  repeat case_match; try by ascii_parser_step.
  apply then_state_ascii. intros p0. by apply add_char_ascii.
Qed.

Lemma process_char_ascii p c p' :
  ascii_parser p ->
  (forall a, c = Some a -> Py.is_ascii_char a = true) ->
  Csv.process_char p c = inr p' -> ascii_parser p'.
Proof.
  intros Hp Hc. unfold Csv.process_char, Csv.end_of_field.
  destruct (Csv.st p), c as [a|];
    try specialize (Hc a eq_refl);
    repeat case_match;
    try (by ascii_parser_step);
    try (by apply start_field_ascii; [|intros ? [= <-]]);
    try (by apply add_char_ascii);
    try (apply then_state_ascii; intros p0; by apply add_char_ascii).
Qed.

Lemma process_line_ascii p line p' :
  ascii_parser p -> ascii_text line ->
  Csv.process_line p line = inr p' -> ascii_parser p'.
Proof.
  unfold ascii_text. revert p.
  induction line as [|a line IH]; intros p Hp Hline; simpl.
  - by apply process_char_ascii.
  - simpl in Hline. apply andb_true_iff in Hline as [Ha Hline].
    destruct (Csv.process_char p (Some a)) as [e|p1] eqn:Hchar; [done|].
    apply IH; [|done].
    eapply process_char_ascii; [exact Hp| |exact Hchar]. by intros ? [= <-].
Qed.

Lemma fields_ascii p :
  ascii_parser p -> Forall ascii_text (rev (Csv.fields p)).
Proof. intros [Hfields _]. by apply Forall_rev. Qed.

Lemma read_ascii p lines :
  ascii_parser p -> Forall ascii_text lines ->
  Forall (Forall ascii_text) (Csv.read p lines).1.
Proof.
  intros Hp Hlines. revert p Hp.
  induction Hlines as [|line rest Hline _ IH]; intros p Hp; simpl.
  - assert (Forall (Forall ascii_text) [rev (Csv.fields (Csv.save_field p))])
      as Hrow by (constructor; [by apply fields_ascii, save_field_ascii|done]).
    destruct (Csv.st p); try done; by destruct (0 <? Csv.field_len p)%N.
  - destruct (Csv.process_line p line) as [e|p1] eqn:Hp1; [done|].
    apply process_line_ascii in Hp1; [|done..].
    destruct (Csv.st p1); try by apply IH.
    specialize (IH Csv.reset). destruct (Csv.read Csv.reset rest) as [rows e].
    simpl. constructor; [by apply fields_ascii|].
    apply IH. by split.
Qed.

Lemma reader_ascii lines :
  Forall ascii_text lines -> Forall (Forall ascii_text) (Csv.reader lines).1.
Proof. intros Hlines. apply read_ascii; [by split|done]. Qed.

Lemma load_rows_ascii (rows : list Csv.row) (err : option Csv.error)
    (lookup lookup' : lookup_table) :
  Forall (Forall ascii_text) rows -> ascii_values lookup ->
  load_rows rows err lookup = inr lookup' -> ascii_values lookup'.
Proof.
  intros Hrows. revert lookup.
  induction Hrows as [|row rest Hrow _ IH]; intros lookup Hlookup; simpl.
  - destruct err; [done|]. by intros [= <-].
  - destruct (load_row row lookup) as [e|lookup1] eqn:Hload; [done|]. simpl.
    apply IH.
    apply load_row_ok in Hload as (dstport & protocol & tag & -> & ->).
    apply map_Forall_insert_2; [|done].
    rewrite !Forall_cons in Hrow. by destruct Hrow as (_ & _ & Htag & _).
Qed.

Lemma load_lookup_table_ascii `{Environment} (lookup_file : string) (w w' : world)
    (lookup : lookup_table) :
  load_lookup_table lookup_file w = (Returned lookup, w') ->
  ascii_values lookup.
Proof.
  intros (content & header & rows & _ & Hascii & Hcsv & Hload & _)%load_lookup_table_returned.
  eapply load_rows_ascii; [|apply map_Forall_empty|exact Hload].
  assert (Forall (Forall ascii_text) (Csv.reader (Py.readlines content)).1)
    as Hrows by (by apply reader_ascii, readlines_ascii).
  rewrite Hcsv in Hrows. by inversion Hrows.
Qed.

(** The keys stay ASCII when a counter is bumped under an ASCII key. *)
Lemma forallb_incr {K} `{EqDecision K} (f : K -> bool) (k : K)
    (d : list (K * Z)) :
  f k = true ->
  forallb (fun item => f item.1) d = true ->
  forallb (fun item => f item.1) (incr k d) = true.
Proof.
  intros Hk. induction d as [|[k' n] d IH]; simpl.
  - by rewrite Hk.
  - intros [Hk' Hd]%andb_true_iff. destruct (decide (k = k')); simpl.
    + by rewrite Hk', Hd.
    + by rewrite Hk', IH.
Qed.

Section ascii_pipeline.
Context `{Environment}.
Variable protocol_mapping : gmap Z string.
Hypothesis names_ascii : ascii_values protocol_mapping.
Implicit Types (lookup : lookup_table) (acc : aggregates).

Lemma classify_line_ascii lookup line acc acc' :
  ascii_values lookup -> ascii_text line ->
  ascii_keys (tag_counts acc) (port_protocol_counts acc) = true ->
  classify_line protocol_mapping lookup line acc = inr acc' ->
  ascii_keys (tag_counts acc') (port_protocol_counts acc') = true.
Proof.
  intros Hlookup Hline [Htags Hpairs]%andb_true_iff. unfold classify_line.
  destruct (length (Py.split line) <? 14)%nat; [done|].
  destruct (Py.split line !! 6%nat) as [dst_port|] eqn:Hport; [|done].
  destruct (Py.split line !! 7%nat) as [protocol|]; [|done].
  destruct (Py.int protocol) as [number|]; [|done].
  assert (ascii_text dst_port) as Hdst.
  { eapply (proj1 (Forall_lookup _ _) (split_ascii _ Hline)); exact Hport. }
  assert (ascii_text (default "" (protocol_mapping !! number))) as Hname.
  { destruct (protocol_mapping !! number) as [name|] eqn:Hnumber; [|done].
    by eapply names_ascii. }
  assert (forallb
            (fun item : string * string * Z =>
               Py.is_ascii item.1.1 && Py.is_ascii item.1.2)
            (incr (dst_port, Py.lower (default "" (protocol_mapping !! number)))
               (port_protocol_counts acc)) = true) as Hpairs'.
  { apply (forallb_incr
             (fun key : string * string =>
                Py.is_ascii key.1 && Py.is_ascii key.2)); [|done].
    simpl. by rewrite is_ascii_lower, Hdst, Hname. }
  intros [= <-]. unfold ascii_keys.
  destruct (lookup !! _) as [tag|] eqn:Htag; simpl.
  - rewrite Hpairs', andb_true_r.
    apply (forallb_incr Py.is_ascii); [|done]. by eapply Hlookup.
  - by rewrite Htags, Hpairs'.
Qed.

Lemma classify_lines_ascii lookup lines acc acc' :
  ascii_values lookup -> Forall ascii_text lines ->
  ascii_keys (tag_counts acc) (port_protocol_counts acc) = true ->
  classify_lines protocol_mapping lookup lines acc = inr acc' ->
  ascii_keys (tag_counts acc') (port_protocol_counts acc') = true.
Proof.
  intros Hlookup Hlines. revert acc.
  induction Hlines as [|line rest Hline _ IH]; intros acc Hacc; simpl.
  - by intros [= <-].
  - destruct (classify_line _ lookup line acc) as [e|acc1] eqn:Hstep; [done|].
    simpl. apply IH. by eapply classify_line_ascii.
Qed.

Lemma process_flow_logs_ascii flow_log_file lookup w acc w' :
  ascii_values lookup ->
  process_flow_logs protocol_mapping flow_log_file lookup w
  = (Returned acc, w') ->
  ascii_keys (tag_counts acc) (port_protocol_counts acc) = true.
Proof.
  intros Hlookup
    (content & _ & Hascii & Hlines & _)%process_flow_logs_returned.
  apply (classify_lines_ascii lookup (Py.readlines content) no_aggregates acc
           Hlookup); [by apply readlines_ascii|done|exact Hlines].
Qed.

(** X18: a run either stops in a reader, with exit status 1 and the files as
    they were, or both readers return and the writer is called.  Then, if
    the environment refuses the output path, the exception of [open] ends
    the run uncaught, with nothing written and nothing printed; otherwise
    the report at the output path is the one [report_lines] lays out for
    the aggregates of the flow log, and the closing message is printed.
    The writer never fails in encoding the script's own aggregates. *)
Lemma main_outcome a0 flow_log_file lookup_file output_file w :
  (exists m,
      main protocol_mapping [a0; flow_log_file; lookup_file; output_file] w
      = (SysExit 1, print m w))
  \/ (exists lookup acc,
        load_lookup_table lookup_file w = (Returned lookup, w)
        /\ process_flow_logs protocol_mapping flow_log_file lookup w
           = (Returned acc, w)
        /\ main protocol_mapping
             [a0; flow_log_file; lookup_file; output_file] w
           = match write_error output_file with
             | Some e => (Uncaught e, w)
             | None =>
                 (Returned (),
                  print (ProcessingComplete output_file)
                    (write_file output_file
                       (unlines (report_lines (tag_counts acc)
                                   (port_protocol_counts acc)
                                   (untagged_count acc))) w))
             end).
Proof.
  rewrite main_unfold.
  destruct (load_lookup_table_cases lookup_file w)
    as [[lookup Hload]|[m Hload]]; rewrite Hload; [|by left; eexists].
  destruct (process_flow_logs_cases protocol_mapping flow_log_file lookup w)
    as [[acc Hacc]|[m Hacc]]; rewrite Hacc; [|by left; eexists].
  right. exists lookup, acc. split_and!; [done..|].
  unfold write_output. destruct (write_error output_file) as [e|]; [done|].
  rewrite write_output_body_ascii; [done|].
  eapply process_flow_logs_ascii; [|exact Hacc].
  by eapply load_lookup_table_ascii.
Qed.

End ascii_pipeline.

(** * More of the script *)

(** ** What the classifier counts *)

Section classifier_counts.
Context `{Environment}.
Variable protocol_mapping : gmap Z string.
Implicit Types (lookup : lookup_table) (acc : aggregates).

Lemma classify_line_factors lookup line acc :
  classify_line protocol_mapping lookup line acc
  = (key ← line_key protocol_mapping line; inr (bump lookup acc key)).
Proof.
  unfold classify_line, line_key, bump.
  destruct (length (Py.split line) <? 14)%nat; [done|].
  destruct (Py.split line !! 6%nat) as [dst_port|]; [|done].
  destruct (Py.split line !! 7%nat) as [protocol|]; [|done].
  by destruct (Py.int protocol) as [number|].
Qed.

Lemma classify_lines_factors lookup lines acc :
  classify_lines protocol_mapping lookup lines acc
  = (keys ← line_keys protocol_mapping lines; inr (foldl (bump lookup) acc keys)).
Proof.
  revert acc. induction lines as [|line rest IH]; intros acc; simpl; [done|].
  rewrite classify_line_factors.
  destruct (line_key protocol_mapping line) as [e|key]; simpl; [done|].
  rewrite IH. by destruct (line_keys protocol_mapping rest).
Qed.

Lemma line_key_well_formed line :
  well_formed_line line <-> exists key, line_key protocol_mapping line = inr key.
Proof.
  unfold well_formed_line, line_key. split.
  - intros (Hlen & protocol & number & Hproto & Hint).
    rewrite (proj2 (Nat.ltb_ge _ _) Hlen), Hproto, Hint.
    destruct (Py.split line !! 6%nat) as [dst_port|] eqn:Hport; [by eexists|].
    apply lookup_ge_None in Hport. lia.
  - intros [key Hkey].
    destruct (length (Py.split line) <? 14)%nat eqn:Hlen; [done|].
    apply Nat.ltb_ge in Hlen. split; [done|].
    destruct (Py.split line !! 6%nat) as [dst_port|]; [|done].
    destruct (Py.split line !! 7%nat) as [protocol|]; [|done].
    destruct (Py.int protocol) as [number|] eqn:Hint; [|done]. eauto.
Qed.

Lemma line_keys_well_formed lines :
  Forall well_formed_line lines
  <-> exists keys, line_keys protocol_mapping lines = inr keys.
Proof.
  induction lines as [|line rest IH]; simpl.
  - split; [by eexists|done].
  - rewrite Forall_cons, IH, line_key_well_formed. split.
    + intros [[key ->] [keys ->]]. by eexists.
    + intros [keys Hkeys].
      destruct (line_key protocol_mapping line) as [e|key]; [done|].
      destruct (line_keys protocol_mapping rest) as [e|keys']; [done|].
      split; by eexists.
Qed.

Lemma process_flow_logs_keys flow_log_file lookup w acc w' :
  process_flow_logs protocol_mapping flow_log_file lookup w = (Returned acc, w')
  <-> exists content keys,
        files w !! flow_log_file = Some content
        /\ Py.is_ascii content = true
        /\ line_keys protocol_mapping (Py.readlines content) = inr keys
        /\ acc = foldl (bump lookup) no_aggregates keys
        /\ w' = w.
Proof.
  split.
  - intros (content & Hfile & Hascii & Hlines & ->)%process_flow_logs_returned.
    rewrite classify_lines_factors in Hlines.
    destruct (line_keys protocol_mapping (Py.readlines content))
      as [e|keys] eqn:Hkeys; [done|].
    injection Hlines as <-. by exists content, keys.
  - intros (content & keys & Hfile & Hascii & Hkeys & -> & ->).
    unfold process_flow_logs, open_read. rewrite Hfile, Hascii. simpl.
    by rewrite classify_lines_factors, Hkeys.
Qed.

End classifier_counts.

(** ** Occurrences and first appearances *)

Section occurrences_facts.
Context {A : Type} `{EqDecision A}.
Implicit Types (x : A) (l : list A).

Lemma occurrences_nonneg x l : 0 <= occurrences x l.
Proof. induction l as [|y l IH]; simpl; [done|]. case_decide; lia. Qed.

Lemma occurrences_pos x l : x ∈ l <-> 0 < occurrences x l.
Proof.
  induction l as [|y l IH]; simpl.
  - split; [by intros ?%elem_of_nil|lia].
  - rewrite elem_of_cons, IH. pose proof (occurrences_nonneg x l).
    case_decide; split; try lia; auto. intros [?|?]; [done|lia].
Qed.

Lemma first_seen_snoc l x :
  first_seen (l ++ [x])
  = if decide (x ∈ l) then first_seen l else first_seen l ++ [x].
Proof.
  unfold first_seen. rewrite reverse_snoc. simpl.
  destruct (decide_rel elem_of x (reverse l)) as [Hin|Hnin].
  - rewrite decide_True; [done|]. by apply elem_of_reverse.
  - rewrite decide_False; [by rewrite reverse_cons|].
    by rewrite <-elem_of_reverse.
Qed.

Lemma elem_of_first_seen x l : x ∈ first_seen l <-> x ∈ l.
Proof.
  unfold first_seen.
  by rewrite elem_of_reverse, elem_of_remove_dups, elem_of_reverse.
Qed.

Lemma NoDup_first_seen l : NoDup (first_seen l).
Proof.
  unfold first_seen. rewrite reverse_Permutation. apply NoDup_remove_dups.
Qed.

(** Bumping the counters of [keys] one after the other. *)
Lemma count_foldl_incr x keys (d : list (A * Z)) :
  count x (foldl (fun d k => incr k d) d keys) = count x d + occurrences x keys.
Proof.
  revert d. induction keys as [|k keys IH]; intros d; simpl; [lia|].
  rewrite IH. destruct (decide (x = k)) as [->|Hne].
  - rewrite count_incr_eq. lia.
  - rewrite count_incr_ne by done. lia.
Qed.

Lemma keys_foldl_incr keys :
  (foldl (fun d k => incr k d) ([] : list (A * Z)) keys).*1 = first_seen keys.
Proof.
  induction keys as [|k keys IH] using rev_ind; [done|].
  rewrite foldl_snoc, keys_incr, first_seen_snoc, IH.
  destruct (decide (k ∈ keys)) as [Hin|Hnin].
  - rewrite decide_True; [done|]. by apply elem_of_first_seen.
  - rewrite decide_False; [done|]. by rewrite elem_of_first_seen.
Qed.

End occurrences_facts.

(** The three aggregates after the counting pass. *)
Lemma bump_port_protocol_counts (lookup : lookup_table) keys acc :
  port_protocol_counts (foldl (bump lookup) acc keys)
  = foldl (fun d k => incr k d) (port_protocol_counts acc) keys.
Proof.
  revert acc. induction keys as [|k keys IH]; intros acc; simpl; [done|].
  rewrite IH. unfold bump. by destruct (lookup !! k).
Qed.

Lemma bump_tag_counts (lookup : lookup_table) keys acc :
  tag_counts (foldl (bump lookup) acc keys)
  = foldl (fun d tag => incr tag d) (tag_counts acc)
      (omap (fun key => lookup !! key) keys).
Proof.
  revert acc. induction keys as [|k keys IH]; intros acc; simpl; [done|].
  rewrite IH. unfold bump. by destruct (lookup !! k).
Qed.

Lemma bump_untagged_count (lookup : lookup_table) keys acc :
  untagged_count (foldl (bump lookup) acc keys)
  = untagged_count acc
    + occurrences None ((fun key => lookup !! key) <$> keys).
Proof.
  revert acc. induction keys as [|k keys IH]; intros acc; simpl; [lia|].
  rewrite IH. unfold bump.
  destruct (lookup !! k); csimpl; repeat case_decide; (done || lia).
Qed.

Lemma occurrences_omap {A B} `{EqDecision B} (f : A -> option B) y
    (l : list A) :
  occurrences y (omap f l) = occurrences (Some y) (f <$> l).
Proof.
  induction l as [|x l IH]; csimpl; [done|].
  destruct (f x) as [y'|]; csimpl; rewrite IH;
    repeat case_decide; (done || congruence).
Qed.

Example sample_flow_log_classified :
  process_flow_logs iana_protocols "flow.log" sample_lookup sample_world
  = (Returned sample_aggregates, sample_world).
Proof. vm_compute. reflexivity. Qed.

Example sample_flow_log_keys :
  line_keys iana_protocols (Py.readlines sample_flow_log) = inr sample_keys.
Proof. vm_compute. reflexivity. Qed.


(** X1: the counter of a (port, protocol) pair is the number of lines of the
    flow log that carry the pair. *)
Theorem port_protocol_count_is_line_count `{Environment} protocol_mapping flow_log_file
    lookup w acc w' content keys :
  files w !! flow_log_file = Some content ->
  line_keys protocol_mapping (Py.readlines content) = inr keys ->
  process_flow_logs protocol_mapping flow_log_file lookup w
  = (Returned acc, w') ->
  forall key, count key (port_protocol_counts acc) = occurrences key keys.
Proof.
  intros Hfile Hkeys
    (content' & keys' & Hfile' & _ & Hkeys' & -> & _)%process_flow_logs_keys
    key.
  rewrite Hfile in Hfile'. injection Hfile' as <-.
  rewrite Hkeys in Hkeys'. injection Hkeys' as <-.
  by rewrite bump_port_protocol_counts, count_foldl_incr.
Qed.

Lemma port_protocol_count_is_line_count_witness :
  (files sample_world !! "flow.log" = Some sample_flow_log
   /\ line_keys iana_protocols (Py.readlines sample_flow_log) = inr sample_keys
   /\ process_flow_logs iana_protocols "flow.log" sample_lookup sample_world
      = (Returned sample_aggregates, sample_world))
  /\ forall key,
       count key (port_protocol_counts sample_aggregates)
       = occurrences key sample_keys.
Proof.
  assert (files sample_world !! "flow.log" = Some sample_flow_log) as Hfile
    by (vm_compute; reflexivity).
  pose proof sample_flow_log_keys as Hkeys.
  pose proof sample_flow_log_classified as Hrun.
  split; [exact (conj Hfile (conj Hkeys Hrun))|].
  exact (port_protocol_count_is_line_count iana_protocols "flow.log"
           sample_lookup sample_world sample_aggregates sample_world
           sample_flow_log sample_keys Hfile Hkeys Hrun).
Defined.

(** X2: the counter of a tag is the number of lines whose pair the lookup
    table maps to the tag, and the untagged count is the number of lines
    whose pair the table does not hold. *)
Theorem tag_count_is_line_count `{Environment} protocol_mapping flow_log_file
    lookup w acc w' content keys :
  files w !! flow_log_file = Some content ->
  line_keys protocol_mapping (Py.readlines content) = inr keys ->
  process_flow_logs protocol_mapping flow_log_file lookup w
  = (Returned acc, w') ->
  (forall tag,
      count tag (tag_counts acc)
      = occurrences (Some tag) ((fun key => lookup !! key) <$> keys))
  /\ untagged_count acc
     = occurrences None ((fun key => lookup !! key) <$> keys).
Proof.
  intros Hfile Hkeys
    (content' & keys' & Hfile' & _ & Hkeys' & -> & _)%process_flow_logs_keys.
  rewrite Hfile in Hfile'. injection Hfile' as <-.
  rewrite Hkeys in Hkeys'. injection Hkeys' as <-.
  split.
  - intros tag.
    by rewrite bump_tag_counts, count_foldl_incr, occurrences_omap.
  - by rewrite bump_untagged_count.
Qed.

Lemma tag_count_is_line_count_witness :
  (files sample_world !! "flow.log" = Some sample_flow_log
   /\ line_keys iana_protocols (Py.readlines sample_flow_log) = inr sample_keys
   /\ process_flow_logs iana_protocols "flow.log" sample_lookup sample_world
      = (Returned sample_aggregates, sample_world))
  /\ (forall tag,
        count tag (tag_counts sample_aggregates)
        = occurrences (Some tag)
            ((fun key => sample_lookup !! key) <$> sample_keys))
  /\ untagged_count sample_aggregates
     = occurrences None ((fun key => sample_lookup !! key) <$> sample_keys).
Proof.
  assert (files sample_world !! "flow.log" = Some sample_flow_log) as Hfile
    by (vm_compute; reflexivity).
  pose proof sample_flow_log_keys as Hkeys.
  pose proof sample_flow_log_classified as Hrun.
  split; [exact (conj Hfile (conj Hkeys Hrun))|].
  exact (tag_count_is_line_count iana_protocols "flow.log"
           sample_lookup sample_world sample_aggregates sample_world
           sample_flow_log sample_keys Hfile Hkeys Hrun).
Defined.

(** X3: both dictionaries hold each key once, in the order in which the
    flow log first shows it. *)
Theorem keys_in_first_seen_order `{Environment} protocol_mapping flow_log_file
    lookup w acc w' content keys :
  files w !! flow_log_file = Some content ->
  line_keys protocol_mapping (Py.readlines content) = inr keys ->
  process_flow_logs protocol_mapping flow_log_file lookup w
  = (Returned acc, w') ->
  (port_protocol_counts acc).*1 = first_seen keys
  /\ (tag_counts acc).*1 = first_seen (omap (fun key => lookup !! key) keys)
  /\ NoDup (port_protocol_counts acc).*1
  /\ NoDup (tag_counts acc).*1.
Proof.
  intros Hfile Hkeys
    (content' & keys' & Hfile' & _ & Hkeys' & -> & _)%process_flow_logs_keys.
  rewrite Hfile in Hfile'. injection Hfile' as <-.
  rewrite Hkeys in Hkeys'. injection Hkeys' as <-.
  rewrite bump_port_protocol_counts, bump_tag_counts. simpl.
  rewrite !keys_foldl_incr. split_and!; [done..| |]; apply NoDup_first_seen.
Qed.

Lemma keys_in_first_seen_order_witness :
  (files sample_world !! "flow.log" = Some sample_flow_log
   /\ line_keys iana_protocols (Py.readlines sample_flow_log) = inr sample_keys
   /\ process_flow_logs iana_protocols "flow.log" sample_lookup sample_world
      = (Returned sample_aggregates, sample_world))
  /\ (port_protocol_counts sample_aggregates).*1 = first_seen sample_keys
  /\ (tag_counts sample_aggregates).*1
     = first_seen (omap (fun key => sample_lookup !! key) sample_keys)
  /\ NoDup (port_protocol_counts sample_aggregates).*1
  /\ NoDup (tag_counts sample_aggregates).*1.
Proof.
  assert (files sample_world !! "flow.log" = Some sample_flow_log) as Hfile
    by (vm_compute; reflexivity).
  pose proof sample_flow_log_keys as Hkeys.
  pose proof sample_flow_log_classified as Hrun.
  split; [exact (conj Hfile (conj Hkeys Hrun))|].
  exact (keys_in_first_seen_order iana_protocols "flow.log"
           sample_lookup sample_world sample_aggregates sample_world
           sample_flow_log sample_keys Hfile Hkeys Hrun).
Defined.

(** X4: a flow log that is there and is ASCII is classified exactly when
    every one of its lines is well formed, whatever the lookup table and
    the protocol table hold. *)
Theorem classified_iff_well_formed `{Environment} protocol_mapping flow_log_file
    lookup w content :
  files w !! flow_log_file = Some content ->
  Py.is_ascii content = true ->
  Forall well_formed_line (Py.readlines content)
  <-> exists acc,
        process_flow_logs protocol_mapping flow_log_file lookup w
        = (Returned acc, w).
Proof.
  intros Hfile Hascii.
  rewrite (line_keys_well_formed protocol_mapping). split.
  - intros [keys Hkeys]. eexists.
    apply process_flow_logs_keys. by exists content, keys.
  - intros [acc (content' & keys & Hfile' & _ & Hkeys & _)%process_flow_logs_keys].
    rewrite Hfile in Hfile'. injection Hfile' as <-. by exists keys.
Qed.

Lemma classified_iff_well_formed_witness :
  (files sample_world !! "flow.log" = Some sample_flow_log
   /\ Py.is_ascii sample_flow_log = true)
  /\ (Forall well_formed_line (Py.readlines sample_flow_log)
      <-> exists acc,
            process_flow_logs iana_protocols "flow.log" sample_lookup
              sample_world = (Returned acc, sample_world)).
Proof.
  assert (files sample_world !! "flow.log" = Some sample_flow_log) as Hfile
    by (vm_compute; reflexivity).
  assert (Py.is_ascii sample_flow_log = true) as Hascii
    by (vm_compute; reflexivity).
  split; [exact (conj Hfile Hascii)|].
  exact (classified_iff_well_formed iana_protocols "flow.log" sample_lookup
           sample_world sample_flow_log Hfile Hascii).
Defined.

Lemma line_key_error protocol_mapping line e :
  line_key protocol_mapping line = inl e -> format_error e.
Proof.
  intros Hkey.
  apply (classify_line_error protocol_mapping ∅ line no_aggregates).
  by rewrite classify_line_factors, Hkey.
Qed.

Lemma line_keys_first_error protocol_mapping good bad rest e :
  Forall well_formed_line good ->
  line_key protocol_mapping bad = inl e ->
  line_keys protocol_mapping (good ++ bad :: rest) = inl e.
Proof.
  intros Hgood Hbad. induction Hgood as [|line good Hline _ IH]; simpl.
  - by rewrite Hbad.
  - apply (line_key_well_formed protocol_mapping) in Hline as [key ->].
    simpl. by rewrite IH.
Qed.

(** X5: in a flow log that exists and is ASCII throughout, the loop stops
    at the first malformed line: the error printed is the one that line
    raises, whatever the lines after it hold. *)
Theorem first_malformed_line_is_reported `{Environment} protocol_mapping flow_log_file
    lookup w content good bad rest e :
  files w !! flow_log_file = Some content ->
  Py.is_ascii content = true ->
  Py.readlines content = good ++ bad :: rest ->
  Forall well_formed_line good ->
  line_key protocol_mapping bad = inl e ->
  process_flow_logs protocol_mapping flow_log_file lookup w
  = (SysExit 1, print (UnexpectedError e) w).
Proof.
  intros Hfile Hascii Hlines Hgood Hbad.
  unfold process_flow_logs, open_read. rewrite Hfile, Hascii. simpl.
  rewrite classify_lines_factors, Hlines.
  rewrite (line_keys_first_error _ _ _ _ _ Hgood Hbad). simpl.
  apply line_key_error in Hbad. by destruct e.
Qed.

Lemma first_malformed_line_is_reported_witness :
  (files mixed_errors_world !! "flow.log"
   = Some (good_line +:+ short_line +:+ named_protocol_line)
   /\ Py.is_ascii (good_line +:+ short_line +:+ named_protocol_line) = true
   /\ Py.readlines (good_line +:+ short_line +:+ named_protocol_line)
      = [good_line] ++ short_line :: [named_protocol_line]
   /\ Forall well_formed_line [good_line]
   /\ line_key iana_protocols short_line = inl InvalidRowLength)
  /\ process_flow_logs iana_protocols "flow.log" sample_lookup
       mixed_errors_world
     = (SysExit 1, print (UnexpectedError InvalidRowLength) mixed_errors_world).
Proof.
  assert (files mixed_errors_world !! "flow.log"
          = Some (good_line +:+ short_line +:+ named_protocol_line)) as Hfile
    by (vm_compute; reflexivity).
  assert (Py.is_ascii (good_line +:+ short_line +:+ named_protocol_line) = true)
    as Hascii by (vm_compute; reflexivity).
  assert (Py.readlines (good_line +:+ short_line +:+ named_protocol_line)
          = [good_line] ++ short_line :: [named_protocol_line]) as Hlines
    by (vm_compute; reflexivity).
  assert (Forall well_formed_line [good_line]) as Hgood.
  { constructor; [|constructor]. split; [vm_compute; lia|].
    exists "6", 6. split; vm_compute; reflexivity. }
  assert (line_key iana_protocols short_line = inl InvalidRowLength) as Hbad
    by (vm_compute; reflexivity).
  split; [exact (conj Hfile (conj Hascii (conj Hlines (conj Hgood Hbad))))|].
  exact (first_malformed_line_is_reported iana_protocols "flow.log"
           sample_lookup mixed_errors_world _ _ _ _ _
           Hfile Hascii Hlines Hgood Hbad).
Defined.

(** ** Missing files *)

Lemma exit_message_inj {A} m1 m2 w :
  (SysExit 1 : outcome A, print m1 w) = (SysExit 1, print m2 w) -> m1 = m2.
Proof.
  unfold print. intros [= Heq]. apply app_inv_head in Heq. by injection Heq.
Qed.

Lemma load_rows_error (rows : list Csv.row) (err : option Csv.error)
    (lookup : lookup_table) (e : exn) :
  load_rows rows err lookup = inl e ->
  e = InvalidRowLength \/ e = ValueError_unpack \/ exists c, e = CsvError c.
Proof.
  revert lookup. induction rows as [|row rest IH]; intros lookup; simpl.
  - destruct err as [c|]; [|done]. intros [= <-]. eauto.
  - destruct (load_row row lookup) as [e'|lookup1] eqn:Hrow; simpl.
    + intros [= <-]. unfold load_row in Hrow.
      destruct (length row <? 3)%nat; [injection Hrow as <-; by left|].
      right; left.
      by destruct row as [|a [|b [|c [|d row]]]]; try injection Hrow as <-.
    + apply IH.
Qed.

(** The body of the loader raises [FileNotFoundError] only where [open]
    does. *)
Lemma load_lookup_body_not_found `{Environment} lookup_file
    (fs : gmap string string) :
  load_lookup_body lookup_file fs = inl FileNotFoundError
  <-> fs !! lookup_file = None /\ read_error lookup_file = FileNotFoundError.
Proof.
  unfold load_lookup_body, open_read.
  destruct (fs !! lookup_file) as [content|]; simpl.
  - split; [|by intros [? _]]. destruct (Py.is_ascii content); [|done]. simpl.
    destruct (Csv.reader (Py.readlines content)) as [[|header rows] [c|]];
      try done;
      by intros [?|[?|[? ?]]]%load_rows_error.
  - split; [by intros [= ->]|by intros [_ ->]].
Qed.

Lemma classify_body_not_found `{Environment} (protocol_mapping : gmap Z string)
    (flow_log_file : string) (lookup : lookup_table)
    (fs : gmap string string) :
  (lines ← open_read flow_log_file fs;
   classify_lines protocol_mapping lookup lines no_aggregates)
  = inl FileNotFoundError
  <-> fs !! flow_log_file = None
      /\ read_error flow_log_file = FileNotFoundError.
Proof.
  unfold open_read.
  destruct (fs !! flow_log_file) as [content|]; simpl.
  - split; [|by intros [? _]]. destruct (Py.is_ascii content); [|done]. simpl.
    intros Hlines. apply classify_lines_error in Hlines. by destruct Hlines.
  - split; [by intros [= ->]|by intros [_ ->]].
Qed.

(** What the two handlers make of the body of a [try] block. *)
Lemma handlers_not_found {A} (not_found : message) (body : exn + A) w :
  (forall e, not_found ≠ UnexpectedError e) ->
  (handlers not_found body w = (SysExit 1, print not_found w)
   <-> body = inl FileNotFoundError)
  /\ ((exists a, handlers not_found body w = (Returned a, w))
      \/ handlers not_found body w = (SysExit 1, print not_found w)
      \/ exists e, e ≠ FileNotFoundError
           /\ handlers not_found body w
              = (SysExit 1, print (UnexpectedError e) w)).
Proof.
  intros Hmessage. unfold handlers. destruct body as [e|a].
  - split.
    + split.
      * intros Hprint%exit_message_inj.
        destruct e; try done; simpl in Hprint; symmetry in Hprint;
          by apply Hmessage in Hprint.
      * intros Hbody. by injection Hbody as ->.
    + destruct e; [by right; left|..];
        (right; right; eexists; split; [|reflexivity]; done).
  - split; [done|]. left. by eexists.
Qed.

(** X6: the loader prints its not-found message exactly when [open] raises
    [FileNotFoundError]: the path holds no file and the environment finds
    nothing else wrong with it.  A call that does not, returns a mapping or
    prints the unexpected-error message, with the exception that stopped
    it; an exception of [open] other than [FileNotFoundError] (a path
    through a regular file, a directory, a refusal) is among these. *)
Theorem lookup_not_found_iff `{Environment} lookup_file w :
  (load_lookup_table lookup_file w
   = (SysExit 1, print (LookupNotFound lookup_file) w)
   <-> files w !! lookup_file = None
       /\ read_error lookup_file = FileNotFoundError)
  /\ ((exists lookup, load_lookup_table lookup_file w = (Returned lookup, w))
      \/ load_lookup_table lookup_file w
         = (SysExit 1, print (LookupNotFound lookup_file) w)
      \/ exists e, e ≠ FileNotFoundError
           /\ load_lookup_table lookup_file w
              = (SysExit 1, print (UnexpectedError e) w))
  /\ (files w !! lookup_file = None ->
      read_error lookup_file ≠ FileNotFoundError ->
      load_lookup_table lookup_file w
      = (SysExit 1, print (UnexpectedError (read_error lookup_file)) w)).
Proof.
  rewrite <-load_lookup_body_not_found. unfold load_lookup_table.
  destruct (handlers_not_found (LookupNotFound lookup_file)
              (load_lookup_body lookup_file (files w)) w) as [Hiff Hcases];
    [done|].
  split_and!; [exact Hiff|exact Hcases|].
  intros Hfile Herror. unfold load_lookup_body, open_read. rewrite Hfile.
  simpl. unfold handlers. by destruct (read_error lookup_file).
Qed.

(** X7: the classifier prints its not-found message exactly when [open]
    raises [FileNotFoundError] on the flow log: the path holds no file and
    the environment finds nothing else wrong with it.  A call that does
    not, returns aggregates or prints the unexpected-error message, with
    the exception that stopped it; an exception of [open] other than
    [FileNotFoundError] is among these. *)
Theorem flow_log_not_found_iff `{Environment} protocol_mapping flow_log_file
    lookup w :
  (process_flow_logs protocol_mapping flow_log_file lookup w
   = (SysExit 1, print (FlowLogNotFound flow_log_file) w)
   <-> files w !! flow_log_file = None
       /\ read_error flow_log_file = FileNotFoundError)
  /\ ((exists acc,
         process_flow_logs protocol_mapping flow_log_file lookup w
         = (Returned acc, w))
      \/ process_flow_logs protocol_mapping flow_log_file lookup w
         = (SysExit 1, print (FlowLogNotFound flow_log_file) w)
      \/ exists e, e ≠ FileNotFoundError
           /\ process_flow_logs protocol_mapping flow_log_file lookup w
              = (SysExit 1, print (UnexpectedError e) w))
  /\ (files w !! flow_log_file = None ->
      read_error flow_log_file ≠ FileNotFoundError ->
      process_flow_logs protocol_mapping flow_log_file lookup w
      = (SysExit 1, print (UnexpectedError (read_error flow_log_file)) w)).
Proof.
  rewrite <-(classify_body_not_found protocol_mapping flow_log_file lookup).
  unfold process_flow_logs.
  match goal with
  | |- context [handlers ?m ?body w] =>
      destruct (handlers_not_found m body w) as [Hiff Hcases]; [done|]
  end.
  split_and!; [exact Hiff|exact Hcases|].
  intros Hfile Herror. unfold open_read. rewrite Hfile.
  simpl. unfold handlers. by destruct (read_error flow_log_file).
Qed.

(** A path through the lookup file, which is no directory: [open] raises
    [NotADirectoryError] and the loader reports an unexpected error, not a
    missing file. *)
Example path_through_a_file :
  files sample_world !! "lookup.csv/x" = None
  /\ load_lookup_table "lookup.csv/x" sample_world
     = (SysExit 1, print (UnexpectedError NotADirectoryError) sample_world).
Proof. split; vm_compute; reflexivity. Qed.

(** ** Which lookup files load *)

Lemma load_rows_three (rows : list Csv.row) (lookup : lookup_table) :
  Forall (fun row => length row = 3%nat) rows
  <-> exists lookup', load_rows rows None lookup = inr lookup'.
Proof.
  revert lookup. induction rows as [|row rest IH]; intros lookup; simpl.
  - split; [by eexists|done].
  - rewrite Forall_cons. split.
    + intros [Hrow Hrest].
      destruct row as [|a [|b [|c [|d row]]]]; try done. simpl.
      by apply IH.
    + intros [lookup' Hload].
      destruct (load_row row lookup) as [e|lookup1] eqn:Hrow; [done|].
      apply load_row_ok in Hrow as (a & b & c & -> & ->).
      split; [done|]. apply (IH (<[(a, Py.lower b) := c]> lookup)). eauto.
Qed.

(** X8: a lookup file that is there and is ASCII loads exactly when the
    reader yields a header and then rows of three fields each, without a
    reader error. *)
Theorem loaded_iff_three_fields `{Environment} lookup_file w content :
  files w !! lookup_file = Some content ->
  Py.is_ascii content = true ->
  (exists lookup : lookup_table,
      load_lookup_table lookup_file w = (Returned lookup, w))
  <-> exists header rows,
        Csv.reader (Py.readlines content) = (header :: rows, None)
        /\ Forall (fun row => length row = 3%nat) rows.
Proof.
  intros Hfile Hascii. split.
  - intros [lookup
      (content' & header & rows & Hfile' & _ & Hcsv & Hload & _)%load_lookup_table_returned].
    rewrite Hfile in Hfile'. injection Hfile' as <-.
    exists header, rows. split; [done|].
    apply (load_rows_three rows ∅). eauto.
  - intros (header & rows & Hcsv & Hrows).
    apply (load_rows_three rows ∅) in Hrows as [lookup Hload].
    exists lookup.
    unfold load_lookup_table, load_lookup_body, open_read.
    rewrite Hfile, Hascii. simpl. by rewrite Hcsv, Hload.
Qed.

Lemma loaded_iff_three_fields_witness :
  (files sample_world !! "lookup.csv" = Some sample_lookup_file
   /\ Py.is_ascii sample_lookup_file = true)
  /\ ((exists lookup : lookup_table,
         load_lookup_table "lookup.csv" sample_world
         = (Returned lookup, sample_world))
      <-> exists header rows,
            Csv.reader (Py.readlines sample_lookup_file)
            = (header :: rows, None)
            /\ Forall (fun row => length row = 3%nat) rows).
Proof.
  assert (files sample_world !! "lookup.csv" = Some sample_lookup_file)
    as Hfile by (vm_compute; reflexivity).
  assert (Py.is_ascii sample_lookup_file = true) as Hascii
    by (vm_compute; reflexivity).
  split; [exact (conj Hfile Hascii)|].
  exact (loaded_iff_three_fields "lookup.csv" sample_world sample_lookup_file
           Hfile Hascii).
Defined.

Lemma load_rows_first_short (pre post : list Csv.row) (row : Csv.row)
    (err : option Csv.error) (lookup : lookup_table) :
  Forall (fun row => length row = 3%nat) pre ->
  (length row < 3)%nat ->
  load_rows (pre ++ row :: post) err lookup = inl InvalidRowLength.
Proof.
  intros Hpre Hshort. revert lookup.
  induction Hpre as [|row' pre Hrow' _ IH]; intros lookup; simpl.
  - by rewrite load_row_short.
  - destruct row' as [|a [|b [|c [|d row']]]]; try done. simpl. apply IH.
Qed.

(** X9: in a lookup file that exists and is ASCII throughout, the first
    row of fewer than three fields, an empty line included, stops the
    loader with the row-length error, whatever comes after it. *)
Theorem first_short_row_is_reported `{Environment} lookup_file w content header
    (pre post : list Csv.row) (row : Csv.row) (err : option Csv.error) :
  files w !! lookup_file = Some content ->
  Py.is_ascii content = true ->
  Csv.reader (Py.readlines content) = (header :: pre ++ row :: post, err) ->
  Forall (fun row => length row = 3%nat) pre ->
  (length row < 3)%nat ->
  load_lookup_table lookup_file w
  = (SysExit 1, print (UnexpectedError InvalidRowLength) w).
Proof.
  intros Hfile Hascii Hcsv Hpre Hshort.
  unfold load_lookup_table, load_lookup_body, open_read.
  rewrite Hfile, Hascii. simpl. rewrite Hcsv.
  by rewrite load_rows_first_short.
Qed.

Lemma first_short_row_is_reported_witness :
  (files blank_line_world !! "lookup.csv" = Some blank_line_lookup_file
   /\ Py.is_ascii blank_line_lookup_file = true
   /\ Csv.reader (Py.readlines blank_line_lookup_file)
      = (["dstport"; "protocol"; "tag"]
         :: [["25"; "tcp"; "sv_P1"]] ++ []
            :: [["443"; "tcp"; "https"; "comment"]], None)
   /\ Forall (fun row => length row = 3%nat) [["25"; "tcp"; "sv_P1"]]
   /\ (length ([] : Csv.row) < 3)%nat)
  /\ load_lookup_table "lookup.csv" blank_line_world
     = (SysExit 1, print (UnexpectedError InvalidRowLength) blank_line_world).
Proof.
  assert (files blank_line_world !! "lookup.csv" = Some blank_line_lookup_file)
    as Hfile by (vm_compute; reflexivity).
  assert (Py.is_ascii blank_line_lookup_file = true) as Hascii
    by (vm_compute; reflexivity).
  assert (Csv.reader (Py.readlines blank_line_lookup_file)
          = (["dstport"; "protocol"; "tag"]
             :: [["25"; "tcp"; "sv_P1"]] ++ []
                :: [["443"; "tcp"; "https"; "comment"]], None)) as Hcsv
    by (vm_compute; reflexivity).
  assert (Forall (fun row : Csv.row => length row = 3%nat)
            [["25"; "tcp"; "sv_P1"]]) as Hpre
    by (constructor; [reflexivity|constructor]).
  assert (length ([] : Csv.row) < 3)%nat as Hshort by (simpl; lia).
  split; [exact (conj Hfile (conj Hascii (conj Hcsv (conj Hpre Hshort))))|].
  exact (first_short_row_is_reported "lookup.csv" blank_line_world _ _ _ _ _ _
           Hfile Hascii Hcsv Hpre Hshort).
Defined.

(** ** What the mapping holds *)

Lemma lower_char_idemp c : Py.lower_char (Py.lower_char c) = Py.lower_char c.
Proof. by destruct c as [[] [] [] [] [] [] [] []]. Qed.

Lemma lower_idemp s : Py.lower (Py.lower s) = Py.lower s.
Proof.
  induction s as [|c s IH]; simpl; [done|]. by rewrite lower_char_idemp, IH.
Qed.

(** An entry of the result was there before the loop or comes from a row. *)
Lemma load_rows_entry (rows : list Csv.row) (err : option Csv.error)
    (lookup lookup' : lookup_table) (key : string * string) (tag : string) :
  load_rows rows err lookup = inr lookup' ->
  lookup' !! key = Some tag ->
  lookup !! key = Some tag
  \/ exists dstport protocol : string,
       [dstport; protocol; tag] ∈ rows /\ key = (dstport, Py.lower protocol).
Proof.
  revert lookup. induction rows as [|row rest IH]; intros lookup; simpl.
  - destruct err; [done|]. intros [= <-]. by left.
  - destruct (load_row row lookup) as [e|lookup1] eqn:Hrow; [done|]. simpl.
    intros Hrest Hkey.
    apply load_row_ok in Hrow as (a & b & c & -> & ->).
    destruct (IH _ Hrest Hkey) as [Hhere|(dstport & protocol & Hin & ->)].
    + destruct (decide (key = (a, Py.lower b))) as [->|Hne].
      * rewrite lookup_insert_eq in Hhere. injection Hhere as ->.
        right. exists a, b. split; [by left|done].
      * rewrite lookup_insert_ne in Hhere by done. by left.
    + right. exists dstport, protocol. split; [by right|done].
Qed.

(** Every row leaves an entry under its key. *)
Lemma load_rows_row (rows : list Csv.row) (err : option Csv.error)
    (lookup lookup' : lookup_table) :
  load_rows rows err lookup = inr lookup' ->
  (forall key, is_Some (lookup !! key) -> is_Some (lookup' !! key))
  /\ forall row, row ∈ rows ->
       exists key, row_key row = Some key /\ is_Some (lookup' !! key).
Proof.
  revert lookup. induction rows as [|row rest IH]; intros lookup; simpl.
  - destruct err; [done|]. intros [= <-]. split; [done|].
    by intros row ?%elem_of_nil.
  - destruct (load_row row lookup) as [e|lookup1] eqn:Hrow; [done|]. simpl.
    intros [Hkeep Hrows]%IH.
    apply load_row_ok in Hrow as (a & b & c & -> & ->). split.
    + intros key Hkey. apply Hkeep.
      destruct (decide (key = (a, Py.lower b))) as [->|Hne].
      * by rewrite lookup_insert_eq.
      * by rewrite lookup_insert_ne.
    + intros row [->|Hin]%elem_of_cons; [|by apply Hrows].
      exists (a, Py.lower b). split; [done|].
      apply Hkeep. by rewrite lookup_insert_eq.
Qed.

(** X10: the mapping holds the rows and nothing else: each entry is the
    port, lowercased protocol and tag of some row after the header, and
    each such row has an entry under its key. *)
Theorem mapping_holds_the_rows `{Environment} (lookup_file : string) (w w' : world)
    (lookup : lookup_table) (content : string) (header : Csv.row)
    (rows : list Csv.row) :
  files w !! lookup_file = Some content ->
  Csv.reader (Py.readlines content) = (header :: rows, None) ->
  load_lookup_table lookup_file w = (Returned lookup, w') ->
  (forall key tag,
      lookup !! key = Some tag ->
      exists dstport protocol : string,
        [dstport; protocol; tag] ∈ rows /\ key = (dstport, Py.lower protocol))
  /\ (forall row, row ∈ rows ->
        exists key, row_key row = Some key /\ is_Some (lookup !! key)).
Proof.
  intros Hfile Hcsv
    (content' & header' & rows' & Hfile' & _ & Hcsv' & Hload & _)%load_lookup_table_returned.
  rewrite Hfile in Hfile'. injection Hfile' as <-.
  rewrite Hcsv in Hcsv'. injection Hcsv' as <- <-. split.
  - intros key tag Hkey.
    by destruct (load_rows_entry _ _ _ _ _ _ Hload Hkey) as [?|?].
  - by apply (load_rows_row _ _ _ _ Hload).
Qed.

Lemma mapping_holds_the_rows_witness :
  (files sample_world !! "lookup.csv" = Some sample_lookup_file
   /\ Csv.reader (Py.readlines sample_lookup_file)
      = (["dstport"; "protocol"; "tag"] :: sample_rows, None)
   /\ load_lookup_table "lookup.csv" sample_world
      = (Returned sample_lookup, sample_world))
  /\ (forall key tag,
        sample_lookup !! key = Some tag ->
        exists dstport protocol : string,
          [dstport; protocol; tag] ∈ sample_rows
          /\ key = (dstport, Py.lower protocol))
  /\ (forall row, row ∈ sample_rows ->
        exists key, row_key row = Some key /\ is_Some (sample_lookup !! key)).
Proof.
  assert (files sample_world !! "lookup.csv" = Some sample_lookup_file)
    as Hfile by (vm_compute; reflexivity).
  assert (Csv.reader (Py.readlines sample_lookup_file)
          = (["dstport"; "protocol"; "tag"] :: sample_rows, None)) as Hcsv
    by (vm_compute; reflexivity).
  pose proof sample_lookup_loaded as Hload.
  split; [exact (conj Hfile (conj Hcsv Hload))|].
  exact (mapping_holds_the_rows "lookup.csv" sample_world sample_world
           sample_lookup sample_lookup_file _ sample_rows Hfile Hcsv Hload).
Defined.

(** X11: every key of the mapping has its protocol in lower case, so a key
    with an upper-case letter in the protocol is never found. *)
Theorem mapping_keys_are_lowercase `{Environment} (lookup_file : string) (w w' : world)
    (lookup : lookup_table) (dstport protocol tag : string) :
  load_lookup_table lookup_file w = (Returned lookup, w') ->
  lookup !! (dstport, protocol) = Some tag ->
  Py.lower protocol = protocol.
Proof.
  intros (content & header & rows & _ & _ & _ & Hload & _)%load_lookup_table_returned
    Hkey.
  destruct (load_rows_entry _ _ _ _ _ _ Hload Hkey)
    as [?|(dstport' & protocol' & _ & [= _ ->])]; [done|].
  apply lower_idemp.
Qed.

Lemma mapping_keys_are_lowercase_witness :
  (load_lookup_table "lookup.csv" sample_world
   = (Returned sample_lookup, sample_world)
   /\ sample_lookup !! ("53", "udp") = Some "dns")
  /\ Py.lower "udp" = "udp".
Proof.
  pose proof sample_lookup_loaded as Hload.
  assert (sample_lookup !! ("53", "udp") = Some "dns") as Hkey
    by (vm_compute; reflexivity).
  split; [exact (conj Hload Hkey)|].
  exact (mapping_keys_are_lowercase "lookup.csv" sample_world sample_world
           sample_lookup "53" "udp" "dns" Hload Hkey).
Defined.

(** X12: protocols match whatever their case on either side.  A line for
    the port of a lookup row, whose protocol number the protocol table
    names like the row's protocol up to case, is counted under the tag of
    the last such row. *)
Theorem protocols_match_up_to_case `{Environment} (protocol_mapping : gmap Z string)
    (lookup_file : string) (w w' : world) (lookup : lookup_table)
    (content : string) (header : Csv.row) (pre post : list Csv.row)
    (dstport protocol tag line field : string) (number : Z) (name : string)
    (acc : aggregates) :
  files w !! lookup_file = Some content ->
  (Csv.reader (Py.readlines content)).1
  = header :: pre ++ [dstport; protocol; tag] :: post ->
  (forall row, row ∈ post -> row_key row ≠ Some (dstport, Py.lower protocol)) ->
  load_lookup_table lookup_file w = (Returned lookup, w') ->
  (14 <= length (Py.split line))%nat ->
  Py.split line !! 6%nat = Some dstport ->
  Py.split line !! 7%nat = Some field ->
  Py.int field = Some number ->
  protocol_mapping !! number = Some name ->
  Py.lower name = Py.lower protocol ->
  classify_line protocol_mapping lookup line acc
  = inr (Aggregates (incr tag (tag_counts acc))
           (incr (dstport, Py.lower protocol) (port_protocol_counts acc))
           (untagged_count acc)).
Proof.
  intros Hfile Hrows Hlast
    (content' & header' & rows & Hfile' & _ & Hcsv & Hload & _)%load_lookup_table_returned
    Hlen Hport Hfield Hint Hname Hcase.
  rewrite Hfile in Hfile'. injection Hfile' as <-.
  rewrite Hcsv in Hrows. simpl in Hrows. injection Hrows as _ ->.
  pose proof (load_rows_last_wins _ _ _ _ _ _ _ _ Hload Hlast) as Htag.
  unfold classify_line.
  rewrite (proj2 (Nat.ltb_ge _ _) Hlen), Hport, Hfield, Hint, Hname.
  simpl. by rewrite Hcase, Htag.
Qed.

Lemma protocols_match_up_to_case_witness :
  (files sample_world !! "lookup.csv" = Some sample_lookup_file
   /\ (Csv.reader (Py.readlines sample_lookup_file)).1
      = ["dstport"; "protocol"; "tag"]
        :: [["25"; "tcp"; "sv_P1"]; ["53"; "UDP"; "dns"]]
           ++ ["25"; "TCP"; "mail"] :: [["443"; "tcp"; "https"]]
   /\ (forall row, row ∈ [["443"; "tcp"; "https"]] ->
         row_key row ≠ Some ("25", Py.lower "TCP"))
   /\ load_lookup_table "lookup.csv" sample_world
      = (Returned sample_lookup, sample_world)
   /\ (14 <= length (Py.split good_line))%nat
   /\ Py.split good_line !! 6%nat = Some "25"
   /\ Py.split good_line !! 7%nat = Some "6"
   /\ Py.int "6" = Some 6
   /\ iana_protocols !! 6 = Some "tcp"
   /\ Py.lower "tcp" = Py.lower "TCP")
  /\ classify_line iana_protocols sample_lookup good_line no_aggregates
     = inr (Aggregates (incr "mail" (tag_counts no_aggregates))
              (incr ("25", Py.lower "TCP") (port_protocol_counts no_aggregates))
              (untagged_count no_aggregates)).
Proof.
  assert (files sample_world !! "lookup.csv" = Some sample_lookup_file)
    as Hfile by (vm_compute; reflexivity).
  assert ((Csv.reader (Py.readlines sample_lookup_file)).1
          = ["dstport"; "protocol"; "tag"]
            :: [["25"; "tcp"; "sv_P1"]; ["53"; "UDP"; "dns"]]
               ++ ["25"; "TCP"; "mail"] :: [["443"; "tcp"; "https"]])
    as Hrows by (vm_compute; reflexivity).
  assert (forall row, row ∈ [["443"; "tcp"; "https"]] ->
            row_key row ≠ Some ("25", Py.lower "TCP")) as Hlast
    by (intros row ->%list_elem_of_singleton; vm_compute; congruence).
  pose proof sample_lookup_loaded as Hload.
  assert (14 <= length (Py.split good_line))%nat as Hlen by (vm_compute; lia).
  assert (Py.split good_line !! 6%nat = Some "25") as Hport
    by (vm_compute; reflexivity).
  assert (Py.split good_line !! 7%nat = Some "6") as Hfield
    by (vm_compute; reflexivity).
  assert (Py.int "6" = Some 6) as Hint by (vm_compute; reflexivity).
  assert (iana_protocols !! 6 = Some "tcp") as Hname
    by (vm_compute; reflexivity).
  assert (Py.lower "tcp" = Py.lower "TCP") as Hcase
    by (vm_compute; reflexivity).
  split.
  { exact (conj Hfile (conj Hrows (conj Hlast (conj Hload (conj Hlen
            (conj Hport (conj Hfield (conj Hint (conj Hname Hcase))))))))). }
  exact (protocols_match_up_to_case iana_protocols "lookup.csv" sample_world
           sample_world sample_lookup sample_lookup_file _ _ _ _ _ _
           good_line _ _ _ no_aggregates
           Hfile Hrows Hlast Hload Hlen Hport Hfield Hint Hname Hcase).
Defined.

(** ** When the writer fails *)

Lemma fwrite_failed text s e :
  fwrite text (Handle s (Some e)) = Handle s (Some e).
Proof. done. Qed.

Lemma write_loop_failed {A} (body : handle -> A -> handle)
    (line : A -> string) (items : list A) s e :
  (forall file item, body file item = fwrite (line item +:+ nl) file) ->
  foldl body (Handle s (Some e)) items = Handle s (Some e).
Proof.
  intros Hbody. induction items as [|item items IH]; simpl; [done|].
  by rewrite Hbody, fwrite_failed.
Qed.

(** A loop of writes goes through when all its lines are ASCII; otherwise
    it stops in [UnicodeEncodeError] with the lines before the first
    offending one written. *)
Lemma write_loop_cases {A} (body : handle -> A -> handle)
    (line : A -> string) (items : list A) s :
  (forall file item, body file item = fwrite (line item +:+ nl) file) ->
  if forallb (fun item => Py.is_ascii (line item)) items
  then foldl body (Handle s None) items
       = Handle (s +:+ unlines (line <$> items)) None
  else exists content rest,
         foldl body (Handle s None) items
         = Handle content (Some UnicodeEncodeError)
         /\ s +:+ unlines (line <$> items) = content +:+ rest.
Proof.
  intros Hbody. revert s.
  induction items as [|item items IH]; intros s; csimpl.
  - by rewrite string_app_nil_r.
  - rewrite Hbody.
    assert (fwrite (line item +:+ nl) (Handle s None)
            = if Py.is_ascii (line item)
              then Handle (s +:+ line item +:+ nl) None
              else Handle s (Some UnicodeEncodeError)) as ->.
    { unfold fwrite. simpl. rewrite is_ascii_app.
      by destruct (Py.is_ascii (line item)). }
    destruct (Py.is_ascii (line item)); simpl.
    + specialize (IH (s +:+ line item +:+ nl)).
      destruct (forallb _ items).
      * rewrite IH. by rewrite !string_app_assoc.
      * destruct IH as (content & rest & -> & Hrest).
        exists content, rest. split; [done|].
        by rewrite <-Hrest, !string_app_assoc.
    + rewrite (write_loop_failed _ line) by done. by eexists _, _.
Qed.

Lemma forallb_eq {A} (f g : A -> bool) (l : list A) :
  (forall x, f x = g x) -> forallb f l = forallb g l.
Proof. intros Hfg. induction l as [|x l IH]; simpl; [done|]. by rewrite Hfg, IH. Qed.

Lemma is_ascii_tag_record item :
  Py.is_ascii (tag_record item) = Py.is_ascii item.1.
Proof.
  unfold tag_record.
  by rewrite !is_ascii_app, is_ascii_pretty_Z, andb_true_r.
Qed.

Lemma is_ascii_port_protocol_record item :
  Py.is_ascii (port_protocol_record item)
  = Py.is_ascii item.1.1 && Py.is_ascii item.1.2.
Proof.
  unfold port_protocol_record.
  rewrite !is_ascii_app, is_ascii_pretty_Z. simpl.
  by rewrite andb_true_r.
Qed.

Lemma write_output_body_cases tag_counts port_protocol_counts untagged_count :
  exists content rest,
    unlines (report_lines tag_counts port_protocol_counts untagged_count)
    = content +:+ rest
    /\ write_output_body tag_counts port_protocol_counts untagged_count
       = Handle content
           (if ascii_keys tag_counts port_protocol_counts then None
            else Some UnicodeEncodeError).
Proof.
  destruct (ascii_keys tag_counts port_protocol_counts) eqn:Hkeys.
  { eexists _, "". rewrite string_app_nil_r.
    split; [done|]. by apply write_output_body_ascii. }
  unfold ascii_keys in Hkeys. unfold write_output_body, open_write.
  rewrite !fwrite_ascii by done.
  assert (forall file (item : string * Z),
    (let '(tag, count) := item in
     fwrite (tag +:+ "," +:+ pretty count +:+ nl) file)
    = fwrite (tag_record item +:+ nl) file) as Htags.
  { intros file [tag n]. unfold tag_record. simpl.
    by rewrite !string_app_assoc. }
  assert (forall file (item : string * string * Z),
    (let '(port, protocol, count) := item in
     fwrite (port +:+ "," +:+ protocol +:+ "," +:+ pretty count +:+ nl) file)
    = fwrite (port_protocol_record item +:+ nl) file) as Hpairs.
  { intros file [[port protocol] n]. unfold port_protocol_record. simpl.
    by rewrite !string_app_assoc. }
  unfold report_lines. rewrite !unlines_app.
  pose proof (write_loop_cases _ tag_record tag_counts
                (("" +:+ "Tag Counts:" +:+ nl) +:+ "Tag,Count" +:+ nl) Htags)
    as Hloop1.
  rewrite (forallb_eq _ (fun item => Py.is_ascii item.1)) in Hloop1
    by apply is_ascii_tag_record.
  destruct (forallb (fun item => Py.is_ascii item.1) tag_counts).
  - rewrite Hloop1. simpl in Hkeys.
    rewrite fwrite_ascii by (by rewrite !is_ascii_app, is_ascii_pretty_Z).
    rewrite !fwrite_ascii by done.
    match goal with
    | |- context [foldl _ (Handle ?s None) port_protocol_counts] =>
        pose proof (write_loop_cases _ port_protocol_record
                      port_protocol_counts s Hpairs) as Hloop2
    end.
    rewrite (forallb_eq _
               (fun item => Py.is_ascii item.1.1 && Py.is_ascii item.1.2))
      in Hloop2 by apply is_ascii_port_protocol_record.
    rewrite Hkeys in Hloop2.
    destruct Hloop2 as (content & rest & -> & Hrest).
    exists content, rest. split; [|done].
    rewrite <-Hrest. simpl. by rewrite !string_app_assoc, ?string_app_nil_r.
  - destruct Hloop1 as (content & rest & -> & Hrest).
    rewrite !fwrite_failed.
    rewrite (write_loop_failed _ port_protocol_record) by done.
    eexists content, _. split; [|done].
    transitivity
      (((("" +:+ "Tag Counts:" +:+ nl) +:+ "Tag,Count" +:+ nl)
        +:+ unlines (tag_record <$> tag_counts))
       +:+ unlines (["Untagged," +:+ pretty untagged_count])
       +:+ unlines [""]
       +:+ unlines ["Port/Protocol Combination Counts:"; "Port,Protocol,Count"]
       +:+ unlines (port_protocol_record <$> port_protocol_counts)).
    + simpl. by rewrite !string_app_assoc, ?string_app_nil_r.
    + rewrite Hrest. by rewrite string_app_assoc.
Qed.

(** X13: the writer fails in two ways, and nothing catches either.  When
    the environment refuses the output path, [open] raises and nothing is
    written.  When the path opens, the writer fails exactly when a tag, a
    port or a protocol name is not ASCII, and then with
    [UnicodeEncodeError]; whether it returns or fails, the file at the
    output path is replaced by a prefix of the report (all of it when the
    writer returns), standard output is left alone and no other file is
    touched. *)
Theorem writer_outcome `{Environment} tag_counts port_protocol_counts
    untagged_count output_file w :
  match write_error output_file with
  | Some e =>
      write_output tag_counts port_protocol_counts untagged_count
        output_file w
      = (Uncaught e, w)
  | None =>
      exists content rest,
        unlines (report_lines tag_counts port_protocol_counts untagged_count)
        = content +:+ rest
        /\ (ascii_keys tag_counts port_protocol_counts = true -> rest = "")
        /\ write_output tag_counts port_protocol_counts untagged_count
             output_file w
           = (if ascii_keys tag_counts port_protocol_counts then Returned ()
              else Uncaught UnicodeEncodeError,
              write_file output_file content w)
  end.
Proof.
  unfold write_output. destruct (write_error output_file) as [e|]; [done|].
  destruct (ascii_keys tag_counts port_protocol_counts) eqn:Hkeys.
  - eexists _, "". rewrite string_app_nil_r.
    split_and!; [done..|]. by rewrite write_output_body_ascii.
  - destruct (write_output_body_cases tag_counts port_protocol_counts
                untagged_count) as (content & rest & Hprefix & Hbody).
    exists content, rest. split_and!; [done..|].
    rewrite Hbody, Hkeys. done.
Qed.

(** The three ways of the writer on sample data: a path in a directory
    that is not there, a tag outside ASCII, and the sample aggregates. *)
Example writer_outcomes :
  write_output [("mail", 2)] [] 0 "nodir/out.txt" sample_world
  = (Uncaught FileNotFoundError, sample_world)
  /\ write_output [(accented_tag, 1)] [] 0 "out.txt" sample_world
     = (Uncaught UnicodeEncodeError,
        write_file "out.txt" ("Tag Counts:" +:+ nl +:+ "Tag,Count" +:+ nl)
          sample_world)
  /\ write_output (tag_counts sample_aggregates)
       (port_protocol_counts sample_aggregates)
       (untagged_count sample_aggregates) "out.txt" sample_world
     = (Returned (), write_file "out.txt" (unlines sample_report) sample_world).
Proof. split_and!; vm_compute; reflexivity. Qed.

(** ** The entry point *)

(** X14: with any number of arguments other than three after the script's
    name, [main] prints the usage text and exits with status 1; it opens
    no file. *)
Theorem wrong_argument_count `{Environment} protocol_mapping (argv : list string) w :
  length argv ≠ 4%nat ->
  main protocol_mapping argv w = (SysExit 1, print Usage w).
Proof.
  intros Hlen.
  by destruct argv as [|a0 [|a1 [|a2 [|a3 [|a4 argv]]]]].
Qed.

Lemma wrong_argument_count_witness :
  length ["logParser.py"; "flow.log"; "lookup.csv"] ≠ 4%nat
  /\ main iana_protocols ["logParser.py"; "flow.log"; "lookup.csv"] empty_world
     = (SysExit 1, print Usage empty_world).
Proof.
  assert (length ["logParser.py"; "flow.log"; "lookup.csv"] ≠ 4%nat) as Hlen
    by (simpl; lia).
  split; [exact Hlen|].
  exact (wrong_argument_count iana_protocols
           ["logParser.py"; "flow.log"; "lookup.csv"] empty_world Hlen).
Defined.

Section entry_point.
Context `{Environment}.
Variable protocol_mapping : gmap Z string.


End entry_point.

(** X16: an empty flow log is no error: with a lookup table that loads and
    an output path that opens, the run writes the report of no lines,
    headers and [Untagged,0], and prints the closing message. *)
Theorem empty_flow_log_report `{Environment} (protocol_mapping : gmap Z string)
    (a0 flow_log_file lookup_file output_file : string) (w : world)
    (lookup : lookup_table) :
  files w !! flow_log_file = Some "" ->
  load_lookup_table lookup_file w = (Returned lookup, w) ->
  write_error output_file = None ->
  main protocol_mapping [a0; flow_log_file; lookup_file; output_file] w
  = (Returned (),
     print (ProcessingComplete output_file)
       (write_file output_file empty_report w)).
Proof.
  intros Hfile Hload Hopen. rewrite main_unfold, Hload.
  unfold process_flow_logs, open_read. rewrite Hfile.
  cbn [Py.is_ascii Py.readlines Py.lines_go Py.flush mbind try_bind
       classify_lines handlers].
  unfold write_output. rewrite Hopen. reflexivity.
Qed.

Lemma empty_flow_log_report_witness :
  (files empty_flow_log_world !! "flow.log" = Some ""
   /\ load_lookup_table "lookup.csv" empty_flow_log_world
      = (Returned sample_lookup, empty_flow_log_world)
   /\ write_error "out.txt" = None)
  /\ main iana_protocols ["logParser.py"; "flow.log"; "lookup.csv"; "out.txt"]
       empty_flow_log_world
     = (Returned (),
        print (ProcessingComplete "out.txt")
          (write_file "out.txt" empty_report empty_flow_log_world)).
Proof.
  assert (files empty_flow_log_world !! "flow.log" = Some "") as Hfile
    by (vm_compute; reflexivity).
  assert (load_lookup_table "lookup.csv" empty_flow_log_world
          = (Returned sample_lookup, empty_flow_log_world)) as Hload
    by (vm_compute; reflexivity).
  assert (write_error "out.txt" = None) as Hopen by reflexivity.
  split; [exact (conj Hfile (conj Hload Hopen))|].
  exact (empty_flow_log_report iana_protocols "logParser.py" "flow.log"
           "lookup.csv" "out.txt" empty_flow_log_world sample_lookup
           Hfile Hload Hopen).
Defined.




Lemma iana_protocols_ascii : ascii_values iana_protocols.
Proof.
  unfold iana_protocols, ascii_values.
  repeat (apply map_Forall_insert_2; [reflexivity|]).
  apply map_Forall_empty.
Qed.

Lemma main_outcome_witness :
  ascii_values iana_protocols
  /\ ((exists m,
         main iana_protocols
           ["logParser.py"; "flow.log"; "lookup.csv"; "out.txt"] sample_world
         = (SysExit 1, print m sample_world))
      \/ (exists (lookup : lookup_table) acc,
            load_lookup_table "lookup.csv" sample_world
            = (Returned lookup, sample_world)
            /\ process_flow_logs iana_protocols "flow.log" lookup sample_world
               = (Returned acc, sample_world)
            /\ main iana_protocols
                 ["logParser.py"; "flow.log"; "lookup.csv"; "out.txt"]
                 sample_world
               = match write_error "out.txt" with
                 | Some e => (Uncaught e, sample_world)
                 | None =>
                     (Returned (),
                      print (ProcessingComplete "out.txt")
                        (write_file "out.txt"
                           (unlines (report_lines (tag_counts acc)
                                       (port_protocol_counts acc)
                                       (untagged_count acc)))
                           sample_world))
                 end)).
Proof.
  split; [exact iana_protocols_ascii|].
  exact (main_outcome iana_protocols iana_protocols_ascii "logParser.py"
           "flow.log" "lookup.csv" "out.txt" sample_world).
Defined.

(** A run whose output path is in a directory that is not there: both
    readers return, [open] raises, and the traceback is all there is. *)
Example unwritable_output :
  main iana_protocols
    ["logParser.py"; "flow.log"; "lookup.csv"; "nodir/out.txt"] sample_world
  = (Uncaught FileNotFoundError, sample_world).
Proof. vm_compute; reflexivity. Qed.

Lemma report_written_only_after_success_witness :
  files (main iana_protocols
           ["logParser.py"; "flow.log"; "lookup.csv"; "out.txt"]
           sample_world).2 ≠ files sample_world
  /\ exists (lookup : lookup_table) acc,
       load_lookup_table "lookup.csv" sample_world
       = (Returned lookup, sample_world)
       /\ process_flow_logs iana_protocols "flow.log" lookup sample_world
          = (Returned acc, sample_world).
Proof.
  assert (files (main iana_protocols
                   ["logParser.py"; "flow.log"; "lookup.csv"; "out.txt"]
                   sample_world).2 ≠ files sample_world) as Hchanged.
  { intros Heq. apply (f_equal (fun fs => fs !! "out.txt")) in Heq.
    vm_compute in Heq. discriminate. }
  split; [exact Hchanged|].
  exact (report_written_only_after_success iana_protocols "logParser.py"
           "flow.log" "lookup.csv" "out.txt" sample_world Hchanged).
Defined.

(** ** The report as a flow log *)

Lemma is_ascii_unlines (lines : list string) :
  Forall ascii_text lines -> ascii_text (unlines lines).
Proof.
  unfold ascii_text. induction 1 as [|line rest Hline _ IH]; simpl; [done|].
  by rewrite !is_ascii_app, Hline, IH.
Qed.

Lemma report_first_line tag_counts port_protocol_counts untagged_count :
  exists rest,
    Py.readlines
      (unlines (report_lines tag_counts port_protocol_counts untagged_count))
    = ("Tag Counts:" +:+ nl) :: rest.
Proof. eexists. unfold report_lines. simpl. reflexivity. Qed.

Lemma report_lines_ascii tag_counts port_protocol_counts untagged_count :
  ascii_keys tag_counts port_protocol_counts = true ->
  Forall ascii_text
    (report_lines tag_counts port_protocol_counts untagged_count).
Proof.
  unfold ascii_keys. intros [Htags Hpairs]%andb_true_iff.
  unfold report_lines. rewrite !Forall_app, !Forall_fmap.
  split_and!; try by repeat constructor.
  - eapply forallb_Forall; [|exact Htags].
    intros item Hitem. unfold ascii_text. simpl.
    by rewrite is_ascii_tag_record.
  - repeat constructor. unfold ascii_text.
    by rewrite is_ascii_app, is_ascii_pretty_Z.
  - eapply forallb_Forall; [|exact Hpairs].
    intros item Hitem. unfold ascii_text. simpl.
    by rewrite is_ascii_port_protocol_record.
Qed.

(** X20: a run told to write its report over the flow log does so, and the
    flow log is gone.  After a run that returned, the file at the path of
    the flow log holds the report of the aggregates that run counted; its
    first line has fewer than 14 fields, so the loop body raises on it
    whatever the lookup table and the counts so far; the classifier, called
    on that world with any lookup table, reports the invalid row length and
    exits with status 1.  The next run with the same arguments therefore
    exits with status 1 after one message, and that message is the
    classifier's when the lookup file still holds what it held. *)
Theorem report_over_flow_log `{Environment} (protocol_mapping : gmap Z string)
    (a0 flow_log_file lookup_file : string) (w w' : world) :
  main protocol_mapping [a0; flow_log_file; lookup_file; flow_log_file] w
  = (Returned (), w') ->
  exists (lookup : lookup_table) (acc : aggregates) (line : string)
    (rest : list string),
    load_lookup_table lookup_file w = (Returned lookup, w)
    /\ process_flow_logs protocol_mapping flow_log_file lookup w
       = (Returned acc, w)
    /\ files w' !! flow_log_file
       = Some (unlines (report_lines (tag_counts acc)
                          (port_protocol_counts acc) (untagged_count acc)))
    /\ Py.readlines
         (unlines (report_lines (tag_counts acc) (port_protocol_counts acc)
                     (untagged_count acc)))
       = line :: rest
    /\ (forall (lookup' : lookup_table) (acc' : aggregates),
          classify_line protocol_mapping lookup' line acc'
          = inl InvalidRowLength)
    /\ (forall lookup' : lookup_table,
          process_flow_logs protocol_mapping flow_log_file lookup' w'
          = (SysExit 1, print (UnexpectedError InvalidRowLength) w'))
    /\ (exists m,
          main protocol_mapping
            [a0; flow_log_file; lookup_file; flow_log_file] w'
          = (SysExit 1, print m w'))
    /\ (files w' !! lookup_file = files w !! lookup_file ->
        main protocol_mapping
          [a0; flow_log_file; lookup_file; flow_log_file] w'
        = (SysExit 1, print (UnexpectedError InvalidRowLength) w')).
Proof.
  intros Hrun.
  rewrite main_unfold in Hrun.
  destruct (load_lookup_table_cases lookup_file w)
    as [[lookup Hload]|[m Hload]]; rewrite Hload in Hrun; [|done].
  destruct (process_flow_logs_cases protocol_mapping flow_log_file lookup w)
    as [[acc Hacc]|[m Hacc]]; rewrite Hacc in Hrun; [|done].
  unfold write_output in Hrun.
  destruct (write_error flow_log_file) as [e|] eqn:Hopen; [done|].
  destruct (write_output_body_cases (tag_counts acc) (port_protocol_counts acc)
              (untagged_count acc)) as (content & tail & _ & Hbody).
  destruct (ascii_keys (tag_counts acc) (port_protocol_counts acc)) eqn:Hkeys;
    [|by rewrite Hbody in Hrun].
  clear Hbody content tail.
  rewrite write_output_body_ascii in Hrun by done.
  pose proof (is_ascii_unlines _ (report_lines_ascii _ _ (untagged_count acc)
                                    Hkeys)) as Hascii.
  destruct (report_first_line (tag_counts acc) (port_protocol_counts acc)
              (untagged_count acc)) as [rest Hlines].
  exists lookup, acc, ("Tag Counts:" +:+ nl), rest.
  remember (unlines (report_lines (tag_counts acc) (port_protocol_counts acc)
                       (untagged_count acc))) as report eqn:Hreport.
  clear Hreport. cbn [written failed] in Hrun. injection Hrun as <-.
  assert (forall (lookup' : lookup_table) (acc' : aggregates),
            classify_line protocol_mapping lookup' ("Tag Counts:" +:+ nl) acc'
            = inl InvalidRowLength) as Hline.
  { intros lookup' acc'. apply classify_line_short. vm_compute. lia. }
  assert (files (print (ProcessingComplete flow_log_file)
                   (write_file flow_log_file report w)) !! flow_log_file
          = Some report) as Hfile.
  { rewrite files_print, files_write_file by done. apply lookup_insert_eq. }
  assert (forall lookup' : lookup_table,
            process_flow_logs protocol_mapping flow_log_file lookup'
              (print (ProcessingComplete flow_log_file)
                 (write_file flow_log_file report w))
            = (SysExit 1,
               print (UnexpectedError InvalidRowLength)
                 (print (ProcessingComplete flow_log_file)
                    (write_file flow_log_file report w)))) as Hclassifier.
  { intros lookup'. unfold process_flow_logs, open_read.
    rewrite Hfile, Hascii, Hlines.
    cbn [mbind try_bind classify_lines]. by rewrite Hline. }
  split_and!; [done..| |].
  - rewrite main_unfold.
    destruct (load_lookup_table_cases lookup_file
                (print (ProcessingComplete flow_log_file)
                   (write_file flow_log_file report w)))
      as [[lookup' ->]|[m ->]]; [|by eexists].
    rewrite Hclassifier. by eexists.
  - intros Hsame. rewrite main_unfold.
    apply handlers_returned in Hload as [Hload _].
    unfold load_lookup_table, load_lookup_body.
    rewrite (open_read_ext lookup_file _ _ Hsame).
    unfold load_lookup_body in Hload. rewrite Hload.
    cbn [handlers]. by rewrite Hclassifier.
Qed.

Example sample_run_over_flow_log :
  main iana_protocols overwriting_argv sample_world
  = (Returned (), (main iana_protocols overwriting_argv sample_world).2).
Proof. vm_compute; reflexivity. Qed.

Lemma report_over_flow_log_witness :
  main iana_protocols overwriting_argv sample_world
  = (Returned (), (main iana_protocols overwriting_argv sample_world).2)
  /\ exists (lookup : lookup_table) (acc : aggregates) (line : string)
       (rest : list string),
       load_lookup_table "lookup.csv" sample_world
       = (Returned lookup, sample_world)
       /\ process_flow_logs iana_protocols "flow.log" lookup sample_world
          = (Returned acc, sample_world)
       /\ files (main iana_protocols overwriting_argv sample_world).2
            !! "flow.log"
          = Some (unlines (report_lines (tag_counts acc)
                             (port_protocol_counts acc) (untagged_count acc)))
       /\ Py.readlines
            (unlines (report_lines (tag_counts acc) (port_protocol_counts acc)
                        (untagged_count acc)))
          = line :: rest
       /\ (forall (lookup' : lookup_table) (acc' : aggregates),
             classify_line iana_protocols lookup' line acc'
             = inl InvalidRowLength)
       /\ (forall lookup' : lookup_table,
             process_flow_logs iana_protocols "flow.log" lookup'
               (main iana_protocols overwriting_argv sample_world).2
             = (SysExit 1,
                print (UnexpectedError InvalidRowLength)
                  (main iana_protocols overwriting_argv sample_world).2))
       /\ (exists m,
             main iana_protocols overwriting_argv
               (main iana_protocols overwriting_argv sample_world).2
             = (SysExit 1,
                print m (main iana_protocols overwriting_argv sample_world).2))
       /\ (files (main iana_protocols overwriting_argv sample_world).2
             !! "lookup.csv"
           = files sample_world !! "lookup.csv" ->
           main iana_protocols overwriting_argv
             (main iana_protocols overwriting_argv sample_world).2
           = (SysExit 1,
              print (UnexpectedError InvalidRowLength)
                (main iana_protocols overwriting_argv sample_world).2)).
Proof.
  pose proof sample_run_over_flow_log as Hrun.
  split; [exact Hrun|].
  exact (report_over_flow_log iana_protocols "logParser.py" "flow.log"
           "lookup.csv" sample_world _ Hrun).
Defined.

(** ** Input that is not ASCII *)

(** X21: a lookup file or a flow log with a byte above 127 cannot be
    decoded: the reader that opens it prints an unexpected-error message
    and exits with status 1, returning nothing. *)
Theorem non_ascii_input_exits `{Environment} (protocol_mapping : gmap Z string)
    (path content : string) (lookup : lookup_table) (w : world) :
  files w !! path = Some content ->
  Py.is_ascii content = false ->
  (exists e,
      load_lookup_table path w = (SysExit 1, print (UnexpectedError e) w))
  /\ (exists e,
        process_flow_logs protocol_mapping path lookup w
        = (SysExit 1, print (UnexpectedError e) w)).
Proof.
  intros Hfile Hascii.
  unfold load_lookup_table, load_lookup_body, process_flow_logs, open_read.
  rewrite Hfile, Hascii. split; by exists UnicodeDecodeError.
Qed.

Lemma non_ascii_input_exits_witness :
  (files non_ascii_world !! "flow.log" = Some accented_tag
   /\ Py.is_ascii accented_tag = false)
  /\ (exists e,
        load_lookup_table "flow.log" non_ascii_world
        = (SysExit 1, print (UnexpectedError e) non_ascii_world))
  /\ (exists e,
        process_flow_logs iana_protocols "flow.log" sample_lookup
          non_ascii_world
        = (SysExit 1, print (UnexpectedError e) non_ascii_world)).
Proof.
  assert (files non_ascii_world !! "flow.log" = Some accented_tag) as Hfile
    by (vm_compute; reflexivity).
  assert (Py.is_ascii accented_tag = false) as Hascii
    by (vm_compute; reflexivity).
  split; [exact (conj Hfile Hascii)|].
  exact (non_ascii_input_exits iana_protocols "flow.log" accented_tag
           sample_lookup non_ascii_world Hfile Hascii).
Defined.
